(** * Aerospace Compliance Checker: the validation pipeline of src/app.py

    A shallow embedding of [ComplianceChecker] (src/app.py): the drawing
    checks, the BOM loop, the risk score, the exposure string and the
    report.  Text is ASCII, modelled as [string]; Python's [str.lower],
    [str.upper], [in] and the [re] patterns of [_check_revision_marking]
    are written out over it.  The checker's mutable instance fields are an
    explicit state record threaded through [validate_document]. *)

From Stdlib Require Import ZArith Lia Bool List String Ascii.
From Stdlib Require Import Numbers.DecimalString Numbers.DecimalZ.
Import ListNotations.
Open Scope string_scope.
Open Scope bool_scope.

(** ** Python string primitives on ASCII text *)

Definition ascii_lower (c : ascii) : ascii :=
  let n := nat_of_ascii c in
  if (Nat.leb 65 n) && (Nat.leb n 90) then ascii_of_nat (n + 32)%nat else c.

Definition ascii_upper (c : ascii) : ascii :=
  let n := nat_of_ascii c in
  if (Nat.leb 97 n) && (Nat.leb n 122) then ascii_of_nat (n - 32)%nat else c.

Fixpoint str_map (f : ascii -> ascii) (s : string) : string :=
  match s with
  | EmptyString => EmptyString
  | String c s' => String (f c) (str_map f s')
  end.

(** [s.lower()] and [s.upper()] *)
Definition lower (s : string) : string := str_map ascii_lower s.
Definition upper (s : string) : string := str_map ascii_upper s.

(** [needle in hay] *)
Fixpoint contains (needle hay : string) : bool :=
  prefix needle hay ||
  match hay with
  | EmptyString => false
  | String _ hay' => contains needle hay'
  end.

(** Decimal rendering of an integer, as [str(n)] / an f-string does. *)
Definition Z_to_dec (z : Z) : string := NilEmpty.string_of_int (Z.to_int z).
Definition nat_to_dec (n : nat) : string := Z_to_dec (Z.of_nat n).

(** A cell of a decoded table: [None] is pandas' NaN. *)
Definition cell := option string.

(** [str(value)] of a cell, NaN rendered as ["nan"]. *)
Definition cell_str (c : cell) : string :=
  match c with Some s => s | None => "nan" end.

(** ** Findings *)

Record finding := mk_finding {
  rule : string;
  description : string;
  severity : string;
  fix_text : string;
  cost_impact : option string;
  location : option string
}.

(** ** The checker's instance state ([ComplianceChecker.__init__]) *)

Record checker := mk_checker {
  violations : list finding;
  warnings : list finding;
  risk_score : Z;
  checked_items : nat
}.

Definition init_checker : checker := mk_checker [] [] 0%Z 0.

Definition add_violation (f : finding) (st : checker) : checker :=
  mk_checker (violations st ++ [f]) (warnings st) (risk_score st) (checked_items st).

Definition add_warning (f : finding) (st : checker) : checker :=
  mk_checker (violations st) (warnings st ++ [f]) (risk_score st) (checked_items st).

(** What an external decoder returns for the uploaded file: the decoded
    value, or the message of the exception it raised. *)
Inductive decoded (A : Type) : Type :=
| Decoded (a : A)
| DecodeError (msg : string).
Arguments Decoded {A} a.
Arguments DecodeError {A} msg.

(** ** Drawing checks *)

Definition any_keyword_in (keywords : list string) (text : string) : bool :=
  let text_lower := lower text in
  existsb (fun keyword => contains (lower keyword) text_lower) keywords.

Definition itar_keywords : list string :=
  ["ITAR"; "export control"; "EAR99"; "22 CFR";
   "International Traffic in Arms"; "export license"].

(** [_check_itar_marking] *)
Definition check_itar_marking (text : string) : bool :=
  any_keyword_in itar_keywords text.

Definition drawing_restricted : list string :=
  ["beryllium copper"; "cadmium"; "mercury"; "lead";
   "hexavalent chromium"; "asbestos"].

(** [_check_restricted_materials] *)
Definition check_restricted_materials (text : string) : list string :=
  let text_lower := lower text in
  filter (fun material => contains (lower material) text_lower) drawing_restricted.

Definition traceability_keywords : list string :=
  ["serial number"; "lot number"; "batch";
   "traceability"; "track"; "S/N"; "L/N"].

(** [_check_traceability] *)
Definition check_traceability (text : string) : bool :=
  any_keyword_in traceability_keywords text.

(** *** The regular expressions of [_check_revision_marking]

    A matcher takes the text from the current position on and says
    whether the pattern matches there; [re_search] tries every position. *)

Definition in_chars (cs : string) (c : ascii) : bool :=
  existsb (Ascii.eqb c) (list_ascii_of_string cs).

Definition in_range (lo hi : nat) (c : ascii) : bool :=
  Nat.leb lo (nat_of_ascii c) && Nat.leb (nat_of_ascii c) hi.

(** [\s] on ASCII text: tab, newline, vertical tab, form feed, carriage
    return, the separators 0x1c-0x1f and space. *)
Definition is_space (c : ascii) : bool :=
  in_range 9 13 c || in_range 28 32 c.

(** [\d] on ASCII text *)
Definition is_digit (c : ascii) : bool := in_range 48 57 c.

Definition first_char (p : ascii -> bool) (s : string) : bool :=
  match s with EmptyString => false | String c _ => p c end.

(** [\s*] followed by whatever [k] matches *)
Fixpoint ws_then (k : string -> bool) (s : string) : bool :=
  k s ||
  match s with
  | EmptyString => false
  | String c s' => is_space c && ws_then k s'
  end.

Fixpoint re_search (m : string -> bool) (s : string) : bool :=
  m s ||
  match s with
  | EmptyString => false
  | String _ s' => re_search m s'
  end.

Definition strip_prefix (p s : string) : option string :=
  if prefix p s then Some (substring (String.length p) (String.length s - String.length p) s)
  else None.

(** [[Rr]ev[ision]?\s*[A-Z0-9]+] *)
Definition rev_at (s : string) : bool :=
  let tail := ws_then (first_char (fun c => in_range 65 90 c || is_digit c)) in
  match s with
  | String c1 (String "e" (String "v" rest)) =>
      in_chars "Rr" c1 &&
      (tail rest ||
       match rest with
       | String c rest' => in_chars "ision" c && tail rest'
       | EmptyString => false
       end)
  | _ => false
  end.

(** [[Vv]ersion\s*[0-9.]+] *)
Definition version_at (s : string) : bool :=
  match s with
  | String c1 rest =>
      in_chars "Vv" c1 &&
      match strip_prefix "ersion" rest with
      | Some rest' => ws_then (first_char (fun c => is_digit c || Ascii.eqb c ".")) rest'
      | None => false
      end
  | EmptyString => false
  end.

(** [\d{1,2}[/-]] followed by whatever [k] matches *)
Definition d12_sep (k : string -> bool) (s : string) : bool :=
  match s with
  | String d1 (String c r) =>
      is_digit d1 &&
      ((in_chars "/-" c && k r) ||
       (is_digit c &&
        match r with
        | String c2 r2 => in_chars "/-" c2 && k r2
        | EmptyString => false
        end))
  | _ => false
  end.

(** [\d{2,4}] (a search needs only its two mandatory digits) *)
Definition d2 (s : string) : bool :=
  match s with
  | String a (String b _) => is_digit a && is_digit b
  | _ => false
  end.

(** [[Dd]ate:\s*\d{1,2}[/-]\d{1,2}[/-]\d{2,4}] *)
Definition date_at (s : string) : bool :=
  match s with
  | String c1 rest =>
      in_chars "Dd" c1 &&
      match strip_prefix "ate:" rest with
      | Some rest' => ws_then (d12_sep (d12_sep d2)) rest'
      | None => false
      end
  | EmptyString => false
  end.

(** [_check_revision_marking] *)
Definition check_revision_marking (text : string) : bool :=
  existsb (fun pattern => re_search pattern text) [rev_at; version_at; date_at].

(** ** [_validate_technical_drawing] *)

(** [_extract_pdf_text]: each page's extracted text followed by a newline. *)
Definition extract_pdf_text (pages : list string) : string :=
  fold_left (fun text page => text ++ page ++ String "010" EmptyString) pages "".

(** The body of the [try] once the text is extracted. *)
Definition drawing_checks (text : string) (st : checker) : checker :=
  let st1 :=
    if negb (check_itar_marking text) then
      add_violation (mk_finding "ITAR-001" "Missing ITAR export control statement"
        "HIGH" "Add standard ITAR warning to title block"
        (Some "$10,000-$100,000 potential fine") None) st
    else st in
  let st2 :=
    fold_left (fun s material =>
      add_violation (mk_finding "AS9100-MAT-001"
        ("Restricted material detected: " ++ material) "HIGH"
        ("Replace " ++ material ++ " with approved alternative")
        (Some "Potential rejection of entire batch") None) s)
      (check_restricted_materials text) st1 in
  let st3 :=
    if negb (check_revision_marking text) then
      add_warning (mk_finding "AS9100-DOC-002" "No revision number detected"
        "MEDIUM" "Add revision letter/number to title block" None None) st2
    else st2 in
  if negb (check_traceability text) then
    add_violation (mk_finding "AS9100-TRACE-001" "Missing traceability requirements"
      "HIGH" "Add serial number or lot traceability note" None None) st3
  else st3.

Definition validate_technical_drawing (st : checker) (pdf : decoded (list string)) : checker :=
  match pdf with
  | Decoded pages => drawing_checks (extract_pdf_text pages) st
  | DecodeError msg =>
      add_warning (mk_finding "SYSTEM"
        ("Could not fully parse drawing: " ++ "PDF extraction failed: " ++ msg)
        "LOW" "Manual review recommended" None None) st
  end.

(** ** [_validate_bom] *)

(** A decoded table: its column headers and its rows, each row mapping
    the column headers to cells.  [iterrows] yields the default pandas
    RangeIndex, so a row's index is its 0-based position. *)
Record dataframe := mk_dataframe {
  columns : list string;
  rows : list (list (string * cell))
}.

(** [_find_column] *)
Definition find_column (df : dataframe) (possible_names : list string) : option string :=
  find (fun col => existsb (fun name => contains (lower name) (lower col)) possible_names)
    (columns df).

(** [row.get(key, default)]; a missing column (the key [None]) gives the default. *)
Definition row_get (row : list (string * cell)) (key : option string) (default : cell) : cell :=
  match key with
  | None => default
  | Some k =>
      match find (fun kv => String.eqb (fst kv) k) row with
      | Some (_, v) => v
      | None => default
      end
  end.

(** Truthiness of a column found by [_find_column]. *)
Definition truthy (col : option string) : bool :=
  match col with Some c => negb (String.eqb c "") | None => false end.

Definition notna (c : cell) : bool := match c with Some _ => true | None => false end.

(** [_is_itar_controlled] *)
Definition is_itar_controlled (part_number : string) : bool :=
  let part_upper := upper part_number in
  existsb (fun indicator => contains indicator part_upper) ["MIL-"; "MS"; "NAS"; "AN"; "CAGE"].

(** [_is_restricted_material] *)
Definition is_restricted_material (material : string) : bool :=
  let material_upper := upper material in
  existsb (fun rest => contains rest material_upper)
    ["BERYLLIUM"; "CADMIUM"; "MERCURY"; "LEAD"; "CHROMIUM VI"; "ASBESTOS"].

(** [_is_certified_supplier] *)
Definition is_certified_supplier (supplier : string) : bool :=
  let supplier_upper := upper supplier in
  existsb (fun cert => contains cert supplier_upper)
    ["BOEING"; "LOCKHEED"; "RAYTHEON"; "NORTHROP";
     "HONEYWELL"; "COLLINS"; "PARKER"; "EATON"].

(** [f'Row {idx + 2}'] *)
Definition row_label (idx : nat) : string := "Row " ++ nat_to_dec (idx + 2).

(** One iteration of the loop over [df.iterrows()]. *)
Definition bom_row (part_col material_col supplier_col : option string)
    (idx : nat) (row : list (string * cell)) (st : checker) : checker :=
  let st1 :=
    if truthy part_col && is_itar_controlled (cell_str (row_get row part_col (Some ""))) then
      add_warning (mk_finding "ITAR-BOM-001"
        ("ITAR controlled part: " ++ cell_str (row_get row part_col (Some "Unknown")))
        "HIGH" "Ensure proper export licensing" None (Some (row_label idx))) st
    else st in
  let st2 :=
    if truthy material_col && notna (row_get row material_col None) then
      let material := upper (cell_str (row_get row material_col (Some ""))) in
      if is_restricted_material material then
        add_violation (mk_finding "AS9100-MAT-002"
          ("Restricted material in BOM: " ++ material) "HIGH"
          "Replace with approved material" None
          (Some (row_label idx ++ ", Part: " ++
                 cell_str (row_get row part_col (Some "Unknown"))))) st1
      else st1
    else st1 in
  let st3 :=
    if truthy supplier_col && notna (row_get row supplier_col None) then
      let supplier := cell_str (row_get row supplier_col (Some "")) in
      if negb (is_certified_supplier supplier) then
        add_warning (mk_finding "AS9100-SUP-001"
          ("Non-certified supplier: " ++ supplier) "MEDIUM"
          "Verify AS9100 certification status" None (Some (row_label idx))) st2
      else st2
    else st2 in
  if truthy part_col && negb (notna (row_get row part_col None)) then
    add_violation (mk_finding "AS9100-DATA-001" "Missing part number" "HIGH"
      "All items must have part numbers" None (Some (row_label idx))) st3
  else st3.

Fixpoint bom_rows (part_col material_col supplier_col : option string)
    (idx : nat) (rs : list (list (string * cell))) (st : checker) : checker :=
  match rs with
  | [] => st
  | row :: rs' => bom_rows part_col material_col supplier_col (S idx) rs'
                    (bom_row part_col material_col supplier_col idx row st)
  end.

Definition bom_part_col (df : dataframe) := find_column df ["Part Number"; "P/N"; "Part"].
Definition bom_material_col (df : dataframe) := find_column df ["Material"; "Mat"; "Composition"].
Definition bom_supplier_col (df : dataframe) := find_column df ["Supplier"; "Vendor"; "Manufacturer"].

Definition validate_bom (st : checker) (table : decoded dataframe) : checker :=
  match table with
  | Decoded df =>
      let st0 := mk_checker (violations st) (warnings st) (risk_score st) (List.length (rows df)) in
      bom_rows (bom_part_col df) (bom_material_col df) (bom_supplier_col df) 0 (rows df) st0
  | DecodeError msg =>
      add_warning (mk_finding "SYSTEM" ("Error processing BOM: " ++ msg) "MEDIUM"
        "Check file format and structure" None None) st
  end.

(** ** Risk cost and report *)

(** Round half to even of [p / q], [q > 0]. *)
Definition round_half_even (p q : Z) : Z :=
  let d := (p / q)%Z in
  let r := (p mod q)%Z in
  if (2 * r <? q)%Z then d
  else if (q <? 2 * r)%Z then (d + 1)%Z
  else if Z.even d then d else (d + 1)%Z.

(** [f"{total/1000000:.1f}"] for [total > 1000000]: [total/1000000] is the
    double nearest the quotient (53-bit mantissa [m], value [m * 2^-s]),
    which [.1f] rounds half to even at one decimal. *)
Definition format_millions_1f (total : Z) : string :=
  let k := Z.log2 (total / 1000000) in
  let s := (52 - k)%Z in
  let m := if (0 <=? s)%Z then round_half_even (total * 2 ^ s) 1000000
           else round_half_even total (1000000 * 2 ^ (- s)) in
  let n := if (0 <=? s)%Z then round_half_even (10 * m) (2 ^ s)
           else (10 * m * 2 ^ (- s))%Z in
  Z_to_dec (n / 10) ++ "." ++ Z_to_dec (n mod 10).

Fixpoint group3_rev (ds : list ascii) : list ascii :=
  match ds with
  | a :: b :: c :: ((_ :: _) as rest) => a :: b :: c :: ","%char :: group3_rev rest
  | _ => ds
  end.

(** [f"{total:,}"] *)
Definition comma_group (total : Z) : string :=
  string_of_list_ascii
    (rev (group3_rev (rev (list_ascii_of_string (Z_to_dec total))))).

(** The string [_calculate_risk_cost] returns for a total. *)
Definition exposure_string (total : Z) : string :=
  if (1000000 <? total)%Z then "$" ++ format_millions_1f total ++ "M potential exposure"
  else if (0 <? total)%Z then "$" ++ comma_group total ++ " potential exposure"
  else "Minimal risk".

(** [_calculate_risk_cost] *)
Definition calculate_risk_cost (st : checker) : string :=
  let base_cost := (Z.of_nat (List.length (violations st)) * 50000)%Z in
  let warning_cost := (Z.of_nat (List.length (warnings st)) * 5000)%Z in
  let total := (base_cost + warning_cost)%Z in
  exposure_string total.

Record report := mk_report {
  status : string;
  report_risk_score : Z;
  report_violations : list finding;
  report_warnings : list finding;
  report_checked_items : nat;
  timestamp : string;
  total_violations : nat;
  total_warnings : nat;
  estimated_risk : string
}.

(** [_generate_report]; [now] is [datetime.now().isoformat()]. *)
Definition generate_report (st : checker) (now : string) : report :=
  let status := match violations st with [] => "PASS" | _ => "FAIL" end in
  mk_report status (risk_score st) (violations st) (warnings st) (checked_items st) now
    (List.length (violations st)) (List.length (warnings st)) (calculate_risk_cost st).

(** The uploaded file, as the external decoders see it: the pages of text
    the PDF reader extracts, and the table pandas reads. *)
Record upload := mk_upload {
  as_pdf : decoded (list string);
  as_table : decoded dataframe
}.

(** The score of [validate_document]: [min(100, |violations| * 15 + |warnings| * 5)]. *)
Definition risk_of (nv nw : nat) : Z :=
  Z.min 100 (Z.of_nat nv * 15 + Z.of_nat nw * 5).

(** [validate_document]: returns the checker's state after the call and
    the report. *)
Definition validate_document (st : checker) (file : upload) (doc_type now : string)
    : checker * report :=
  let st0 := mk_checker [] [] 0%Z (checked_items st) in
  let st1 :=
    if String.eqb doc_type "drawing" then validate_technical_drawing st0 (as_pdf file)
    else if String.eqb doc_type "bom" then validate_bom st0 (as_table file)
    else st0 in
  let st2 := mk_checker (violations st1) (warnings st1)
               (risk_of (List.length (violations st1)) (List.length (warnings st1)))
               (checked_items st1) in
  (st2, generate_report st2 now).

Definition run (st : checker) (file : upload) (doc_type now : string) : report :=
  snd (validate_document st file doc_type now).

(** ** Vocabulary for the statements *)

(** The four row-scoped checks of the BOM loop, in the order the loop body
    runs them. *)
Inductive bom_rule := ItarBom | MatRestricted | SupUncertified | DataMissing.

Definition bom_rule_order : list bom_rule := [ItarBom; MatRestricted; SupUncertified; DataMissing].

Definition bom_rule_id (r : bom_rule) : string :=
  match r with
  | ItarBom => "ITAR-BOM-001"
  | MatRestricted => "AS9100-MAT-002"
  | SupUncertified => "AS9100-SUP-001"
  | DataMissing => "AS9100-DATA-001"
  end.

Definition bom_rule_severity (r : bom_rule) : string :=
  match r with SupUncertified => "MEDIUM" | _ => "HIGH" end.

(** Whether the rule's findings go to [self.violations] (else to [self.warnings]). *)
Definition bom_rule_is_violation (r : bom_rule) : bool :=
  match r with MatRestricted | DataMissing => true | _ => false end.

(** The condition under which the loop body emits the rule's finding for a row. *)
Definition fires (part_col material_col supplier_col : option string)
    (r : bom_rule) (row : list (string * cell)) : bool :=
  match r with
  | ItarBom => truthy part_col && is_itar_controlled (cell_str (row_get row part_col (Some "")))
  | MatRestricted =>
      truthy material_col && notna (row_get row material_col None) &&
      is_restricted_material (upper (cell_str (row_get row material_col (Some ""))))
  | SupUncertified =>
      truthy supplier_col && notna (row_get row supplier_col None) &&
      negb (is_certified_supplier (cell_str (row_get row supplier_col (Some ""))))
  | DataMissing => truthy part_col && negb (notna (row_get row part_col None))
  end.

(** The location the rule's finding carries for the row at position [idx]. *)
Definition bom_rule_location (part_col : option string) (r : bom_rule) (idx : nat)
    (row : list (string * cell)) : string :=
  match r with
  | MatRestricted => row_label idx ++ ", Part: " ++ cell_str (row_get row part_col (Some "Unknown"))
  | _ => row_label idx
  end.

(** Rule, severity and location of a finding. *)
Definition sig_of (f : finding) : string * string * option string :=
  (rule f, severity f, location f).

(** The (rule, severity, location) of what one row emits into one list. *)
Definition row_emits (part_col material_col supplier_col : option string) (to_violations : bool)
    (idx : nat) (row : list (string * cell)) : list (string * string * option string) :=
  flat_map (fun r =>
    if Bool.eqb (bom_rule_is_violation r) to_violations && fires part_col material_col supplier_col r row
    then [(bom_rule_id r, bom_rule_severity r, Some (bom_rule_location part_col r idx row))]
    else []) bom_rule_order.

Fixpoint enum_from {A} (i : nat) (l : list A) : list (nat * A) :=
  match l with
  | [] => []
  | x :: l' => (i, x) :: enum_from (S i) l'
  end.

(** What the rows from position [i] on emit into one list, in loop order. *)
Definition rows_emit (part_col material_col supplier_col : option string) (to_violations : bool)
    (i : nat) (rs : list (list (string * cell))) : list (string * string * option string) :=
  flat_map (fun p => row_emits part_col material_col supplier_col to_violations (fst p) (snd p))
    (enum_from i rs).

(** Does a location name the row at position [idx]: is it ["Row n"] or
    does it start with ["Row n,"]? *)
Definition refers_loc (idx : nat) (loc : option string) : bool :=
  match loc with
  | Some l => String.eqb l (row_label idx) || prefix (row_label idx ++ ",") l
  | None => false
  end.

Definition refers_to_row (idx : nat) (f : finding) : bool := refers_loc idx (location f).

Fixpoint comma_free (s : string) : Prop :=
  match s with
  | EmptyString => True
  | String c s' => c <> ","%char /\ comma_free s'
  end.

Definition count_severity (sev : string) (fs : list finding) : nat :=
  List.length (filter (fun f => String.eqb (severity f) sev) fs).

(** ** Sample inputs *)

Definition sample_now : string := "2026-01-01T00:00:00".

(** A BOM whose only column is the part number and whose one row has an
    ITAR-indicating part number. *)
Definition itar_part_bom : dataframe :=
  mk_dataframe ["Part Number"] [[("Part Number", Some "MS21042-3")]].

Definition bom_upload (df : dataframe) : upload := mk_upload (DecodeError "not a PDF") (Decoded df).
Definition drawing_upload (pages : list string) : upload :=
  mk_upload (Decoded pages) (DecodeError "not a table").

(** Two rows, each with a restricted material and no part number. *)
Definition two_bad_rows_bom : dataframe :=
  mk_dataframe ["Part Number"; "Material"]
    [[("Part Number", None); ("Material", Some "Cadmium")];
     [("Part Number", None); ("Material", Some "Lead")]].

(** Five rows; the 2nd and the 4th have no part number. *)
Definition five_row_bom : dataframe :=
  mk_dataframe ["Part Number"; "Qty"]
    [[("Part Number", Some "P-100"); ("Qty", Some "1")];
     [("Part Number", None); ("Qty", Some "2")];
     [("Part Number", Some "P-300"); ("Qty", Some "3")];
     [("Part Number", None); ("Qty", Some "4")];
     [("Part Number", Some "P-500"); ("Qty", Some "5")]].

(** One row from a supplier that is not on the certified list. *)
Definition supplier_only_bom : dataframe :=
  mk_dataframe ["Vendor"] [[("Vendor", Some "Acme Machining")]].

(** 21 rows without part numbers. *)
Definition missing_parts_bom : dataframe :=
  mk_dataframe ["P/N"] (repeat [("P/N", None)] 21).

(** The restricted material example row. *)
Definition cadmium_bom : dataframe :=
  mk_dataframe ["Part Number"; "Material"]
    [[("Part Number", Some "BRKT-22"); ("Material", Some "Cadmium Plating 0.002in")]].

(** A part number containing the word PANEL. *)
Definition panel_bom : dataframe :=
  mk_dataframe ["Part"] [[("Part", Some "PANEL-7")]].

(** Where findings are filed: every violation is High and none is an
    ITAR-BOM-001 finding; a warning is High only if it is ITAR-BOM-001. *)
Definition viol_ok (f : finding) : Prop := severity f = "HIGH" /\ rule f <> "ITAR-BOM-001".
Definition warn_ok (f : finding) : Prop := severity f <> "HIGH" \/ rule f = "ITAR-BOM-001".
Definition checker_ok (st : checker) : Prop :=
  Forall viol_ok (violations st) /\ Forall warn_ok (warnings st).

(** Two checker states holding the same findings (the score and item count
    may differ). *)
Definition same_findings (st st' : checker) : Prop :=
  violations st = violations st' /\ warnings st = warnings st'.

(** ** The view [validate] of src/app.py *)

(** The uploaded file part: its client-side name and its content as the
    decoders see it. *)
Record file_part := mk_file_part {
  filename : string;
  content : upload
}.

(** What [validate] reads from the request: [request.files['file']] when
    the part is there, and [request.form.get('doc_type')]. *)
Record request := mk_request {
  req_file : option file_part;
  req_doc_type : option string
}.

(** What the file system does on [file.save(filepath)] (with the name
    [secure_filename] gives) and on [os.remove(filepath)]: [None] when the
    call returns, the message of the exception it raises otherwise. *)
Record file_io := mk_file_io {
  save_error : option string;
  remove_error : option string
}.

Inductive response :=
| JsonReport (r : report)                (** [jsonify(report)], status 200 *)
| JsonError (msg : string) (code : nat)  (** [jsonify({'error': msg}), code] *)
| Unhandled (msg : string).              (** an exception escaping the view *)

(** [validate]: the module-level [checker] is the state threaded through. *)
Definition validate (st : checker) (req : request) (io : file_io) (now : string)
    : checker * response :=
  match req_file req with
  | None => (st, JsonError "No file uploaded" 400)
  | Some file =>
      let doc_type := match req_doc_type req with Some d => d | None => "drawing" end in
      if String.eqb (filename file) "" then (st, JsonError "No file selected" 400)
      else
        match save_error io with
        | Some msg => (st, Unhandled msg)
        | None =>
            let (st', rep) := validate_document st (content file) doc_type now in
            match remove_error io with
            | None => (st', JsonReport rep)
            | Some msg => (st', JsonError msg 500)
            end
        end
  end.

(** ** [ComplianceEngine] (src/core/compliance_engine.py) *)

(** [calculate_risk_score] *)
Definition calculate_risk_score {A B : Type} (vs : list A) (ws : list B) : Z :=
  let base_score := fold_left (fun s _ => (s - 15)%Z) vs 100%Z in
  let base_score := fold_left (fun s _ => (s - 5)%Z) ws base_score in
  Z.max 0 base_score.

(** An entry of [restricted_materials] in [load_as9100_rules]. *)
Record restricted_rule := mk_restricted_rule {
  r_material : string;
  r_restriction : string;
  r_severity : string;
  r_reference : string
}.

(** [self.rules['as9100']['material_requirements']['restricted_materials']] *)
Definition as9100_restricted_materials : list restricted_rule :=
  [mk_restricted_rule "beryllium copper" "Prohibited in crew compartments"
     "violation" "AS9100D Section 8.5.1";
   mk_restricted_rule "cadmium" "Requires special handling and disposal"
     "warning" "Environmental compliance"].

(** [self.rules['itar']['export_control']['keywords_to_check']] *)
Definition itar_keywords_to_check : list string :=
  ["military"; "defense"; "weapon"; "missile"; "satellite"].

(** A violation or warning dict: [type], [description], [reference], and
    the optional [location] and [action] keys. *)
Record issue := mk_issue {
  issue_type : string;
  issue_description : string;
  issue_reference : string;
  issue_location : option string;
  issue_action : option string
}.

Record recommendation := mk_recommendation {
  priority : string;
  message : string;
  action : string
}.

(** The [{'violations': ..., 'warnings': ..., 'recommendations': ...}] dict. *)
Record check_result := mk_check_result {
  res_violations : list issue;
  res_warnings : list issue;
  res_recommendations : list recommendation
}.

Definition empty_result : check_result := mk_check_result [] [] [].

(** The keys of [data] the engine reads: ['materials'] and ['raw_text']. *)
Record engine_data := mk_engine_data {
  data_materials : option (list string);
  data_raw_text : option string
}.

(** The inner loop of [check_as9100] over the restricted materials, for one
    material. *)
Definition as9100_material_step (acc : list issue * list issue) (material : string)
    : list issue * list issue :=
  fold_left (fun acc restricted =>
    let '(violations, warnings) := acc in
    if contains (lower (r_material restricted)) (lower material) then
      if String.eqb (r_severity restricted) "violation" then
        ((violations ++ [mk_issue "Restricted Material"
            ("Found " ++ r_material restricted ++ ": " ++ r_restriction restricted)
            (r_reference restricted) (Some material) None])%list, warnings)
      else
        (violations, (warnings ++ [mk_issue "Material Warning"
            ("Found " ++ r_material restricted ++ ": " ++ r_restriction restricted)
            (r_reference restricted) None None])%list)
    else (violations, warnings))
    as9100_restricted_materials acc.

(** [check_as9100] *)
Definition check_as9100 (data : engine_data) : check_result :=
  let '(violations, warnings) :=
    match data_materials data with
    | Some materials => fold_left as9100_material_step materials ([], [])
    | None => ([], [])
    end in
  let recommendations :=
    if Nat.ltb 3 (List.length violations) then
      [mk_recommendation "high"
         "Multiple AS9100 violations found. Recommend full compliance review."
         "Schedule compliance audit with quality team"]
    else [] in
  mk_check_result violations warnings recommendations.

(** [check_itar] *)
Definition check_itar (data : engine_data) : check_result :=
  let violations :=
    match data_raw_text data with
    | Some raw_text =>
        let text := lower raw_text in
        let has_itar_marking :=
          existsb (fun marker => contains marker text)
            ["itar"; "export controlled"; "technical data"] in
        if negb has_itar_marking then
          let contains_itar_content :=
            existsb (fun keyword => contains (lower keyword) text) itar_keywords_to_check in
          if contains_itar_content then
            [mk_issue "Missing Export Control Marking"
               "Document contains ITAR-controlled content but lacks proper marking"
               "22 CFR 120-130" None (Some "Add ITAR warning statement to document")]
          else []
        else []
    | None => []
    end in
  mk_check_result violations [] [].

(** [check_far] *)
Definition check_far (data : engine_data) : check_result := empty_result.

(** [check] *)
Definition check (data : engine_data) (standard : string) : check_result :=
  if String.eqb standard "as9100" then check_as9100 data
  else if String.eqb standard "itar" then check_itar data
  else if String.eqb standard "far" then check_far data
  else empty_result.

(** ** More vocabulary for the statements *)

(** [s.replace(',', '')] *)
Definition remove_commas (s : string) : string :=
  string_of_list_ascii (filter (fun c => negb (Ascii.eqb c ","%char)) (list_ascii_of_string s)).

(** A text made of newlines only: what [_extract_pdf_text] gives for pages
    with no text. *)
Fixpoint newlines_only (s : string) : bool :=
  match s with
  | EmptyString => true
  | String c s' => Ascii.eqb c "010"%char && newlines_only s'
  end.

(** Does [_find_column] take the header [col] for one of [possible_names]? *)
Definition column_matches (possible_names : list string) (col : string) : bool :=
  existsb (fun name => contains (lower name) (lower col)) possible_names.

(** What one material contributes to [check_as9100]'s violations and warnings
    (the two rules of [load_as9100_rules], lower-cased). *)
Definition as9100_violation_of (material : string) : list issue :=
  if contains "beryllium copper" (lower material) then
    [mk_issue "Restricted Material" "Found beryllium copper: Prohibited in crew compartments"
       "AS9100D Section 8.5.1" (Some material) None]
  else [].

Definition as9100_warning_of (material : string) : list issue :=
  if contains "cadmium" (lower material) then
    [mk_issue "Material Warning" "Found cadmium: Requires special handling and disposal"
       "Environmental compliance" None None]
  else [].

(** * Lemmas *)

(** ** The BOM loop, row by row *)

Section BomLoop.

Variables part_col material_col supplier_col : option string.

Lemma bom_row_violations : forall idx row st,
  map sig_of (violations (bom_row part_col material_col supplier_col idx row st)) =
  (map sig_of (violations st) ++ row_emits part_col material_col supplier_col true idx row)%list.
Proof.
  intros idx row st. unfold bom_row, row_emits; simpl.
  destruct (truthy part_col && is_itar_controlled _);
  destruct (truthy material_col && notna _);
  try destruct (is_restricted_material _);
  destruct (truthy supplier_col && notna _);
  try destruct (is_certified_supplier _);
  destruct (truthy part_col && negb _);
  simpl; rewrite ?map_app, <- ?app_assoc; simpl; rewrite ?app_nil_r; reflexivity.
Qed.

Lemma bom_row_warnings : forall idx row st,
  map sig_of (warnings (bom_row part_col material_col supplier_col idx row st)) =
  (map sig_of (warnings st) ++ row_emits part_col material_col supplier_col false idx row)%list.
Proof.
  intros idx row st. unfold bom_row, row_emits; simpl.
  destruct (truthy part_col && is_itar_controlled _);
  destruct (truthy material_col && notna _);
  try destruct (is_restricted_material _);
  destruct (truthy supplier_col && notna _);
  try destruct (is_certified_supplier _);
  destruct (truthy part_col && negb _);
  simpl; rewrite ?map_app, <- ?app_assoc; simpl; rewrite ?app_nil_r; reflexivity.
Qed.

Lemma bom_row_checked_items : forall idx row st,
  checked_items (bom_row part_col material_col supplier_col idx row st) = checked_items st.
Proof.
  intros idx row st. unfold bom_row; simpl.
  destruct (truthy part_col && is_itar_controlled _);
  destruct (truthy material_col && notna _);
  try destruct (is_restricted_material _);
  destruct (truthy supplier_col && notna _);
  try destruct (is_certified_supplier _);
  destruct (truthy part_col && negb _); reflexivity.
Qed.

Lemma bom_rows_violations : forall rs i st,
  map sig_of (violations (bom_rows part_col material_col supplier_col i rs st)) =
  (map sig_of (violations st) ++ rows_emit part_col material_col supplier_col true i rs)%list.
Proof.
  induction rs as [|row rs IH]; intros i st; simpl.
  - rewrite app_nil_r; reflexivity.
  - rewrite IH, bom_row_violations, <- app_assoc; reflexivity.
Qed.

Lemma bom_rows_warnings : forall rs i st,
  map sig_of (warnings (bom_rows part_col material_col supplier_col i rs st)) =
  (map sig_of (warnings st) ++ rows_emit part_col material_col supplier_col false i rs)%list.
Proof.
  induction rs as [|row rs IH]; intros i st; simpl.
  - rewrite app_nil_r; reflexivity.
  - rewrite IH, bom_row_warnings, <- app_assoc; reflexivity.
Qed.

End BomLoop.

(** ** How findings are filed *)

Lemma add_violation_ok : forall f st, viol_ok f -> checker_ok st -> checker_ok (add_violation f st).
Proof.
  intros f st Hf [HV HW]; split; simpl; [apply Forall_app; split; auto | exact HW].
Qed.

Lemma add_warning_ok : forall f st, warn_ok f -> checker_ok st -> checker_ok (add_warning f st).
Proof.
  intros f st Hf [HV HW]; split; simpl; [exact HV | apply Forall_app; split; auto].
Qed.

Ltac finding_ok :=
  first [ split; cbn; [reflexivity | discriminate]
        | left; cbn; discriminate
        | right; cbn; reflexivity ].

Ltac checker_ok_step :=
  repeat first
    [ assumption
    | apply add_violation_ok; [finding_ok | ]
    | apply add_warning_ok; [finding_ok | ] ].

Lemma bom_row_ok : forall pc mc sc idx row st,
  checker_ok st -> checker_ok (bom_row pc mc sc idx row st).
Proof.
  intros pc mc sc idx row st H. unfold bom_row; simpl.
  destruct (truthy pc && is_itar_controlled _);
  destruct (truthy mc && notna _);
  try destruct (is_restricted_material _);
  destruct (truthy sc && notna _);
  try destruct (is_certified_supplier _);
  destruct (truthy pc && negb _); simpl; checker_ok_step.
Qed.

Lemma bom_rows_ok : forall pc mc sc rs idx st,
  checker_ok st -> checker_ok (bom_rows pc mc sc idx rs st).
Proof.
  intros pc mc sc rs; induction rs as [|row rs IH]; intros idx st H; simpl;
    [exact H | apply IH, bom_row_ok, H].
Qed.

Lemma validate_bom_ok : forall st t, checker_ok st -> checker_ok (validate_bom st t).
Proof.
  intros st [df | msg] H; simpl.
  - apply bom_rows_ok. exact H.
  - checker_ok_step.
Qed.

Lemma restricted_fold_ok : forall ms st,
  checker_ok st ->
  checker_ok (fold_left (fun s material =>
      add_violation (mk_finding "AS9100-MAT-001"
        ("Restricted material detected: " ++ material) "HIGH"
        ("Replace " ++ material ++ " with approved alternative")
        (Some "Potential rejection of entire batch") None) s) ms st).
Proof.
  induction ms as [|m ms IH]; intros st H; simpl; [exact H |].
  apply IH. checker_ok_step.
Qed.

Lemma drawing_checks_ok : forall text st, checker_ok st -> checker_ok (drawing_checks text st).
Proof.
  intros text st H. unfold drawing_checks.
  assert (H1 : checker_ok (if negb (check_itar_marking text) then
      add_violation (mk_finding "ITAR-001" "Missing ITAR export control statement"
        "HIGH" "Add standard ITAR warning to title block"
        (Some "$10,000-$100,000 potential fine") None) st else st))
    by (destruct (negb _); checker_ok_step).
  pose proof (restricted_fold_ok (check_restricted_materials text) _ H1) as H2.
  destruct (negb (check_revision_marking text)); destruct (negb (check_traceability text));
    checker_ok_step.
Qed.

Lemma validate_technical_drawing_ok : forall st p,
  checker_ok st -> checker_ok (validate_technical_drawing st p).
Proof.
  intros st [pages | msg] H; simpl; [apply drawing_checks_ok, H | checker_ok_step].
Qed.

Lemma validate_document_ok : forall st file doc_type now,
  checker_ok (fst (validate_document st file doc_type now)).
Proof.
  intros st file doc_type now. unfold validate_document; simpl.
  assert (H0 : checker_ok (mk_checker [] [] 0%Z (checked_items st))) by (split; constructor).
  destruct (String.eqb doc_type "drawing");
    [| destruct (String.eqb doc_type "bom")];
    [ pose proof (validate_technical_drawing_ok _ (as_pdf file) H0) as H
    | pose proof (validate_bom_ok _ (as_table file) H0) as H
    | pose proof H0 as H ];
    destruct H as [HV HW]; split; assumption.
Qed.

(** ** The report's fields *)

Lemma run_fields : forall st file doc_type now,
  let st' := fst (validate_document st file doc_type now) in
  let rep := run st file doc_type now in
  report_violations rep = violations st' /\
  report_warnings rep = warnings st' /\
  report_risk_score rep = risk_of (List.length (violations st')) (List.length (warnings st')) /\
  status rep = match violations st' with [] => "PASS" | _ => "FAIL" end /\
  estimated_risk rep = exposure_string
    (Z.of_nat (List.length (violations st')) * 50000 +
     Z.of_nat (List.length (warnings st')) * 5000)%Z.
Proof.
  intros st file doc_type now st' rep. subst st' rep.
  unfold run, validate_document; simpl. repeat split.
Qed.

Lemma risk_of_monotone_high : forall nv nv' nw,
  (nv <= nv')%nat -> (risk_of nv nw <= risk_of nv' nw)%Z.
Proof. intros nv nv' nw H. unfold risk_of. lia. Qed.

Lemma risk_of_saturates : forall nv nw, (7 <= nv)%nat -> risk_of nv nw = 100%Z.
Proof. intros nv nw H. unfold risk_of. lia. Qed.

Lemma risk_of_bounds : forall nv nw, (0 <= risk_of nv nw <= 100)%Z.
Proof. intros nv nw. unfold risk_of. lia. Qed.

Lemma exposure_string_not_minimal : forall total,
  (0 < total)%Z -> exposure_string total <> "Minimal risk".
Proof.
  intros total H. unfold exposure_string.
  destruct (1000000 <? total)%Z; [discriminate |].
  destruct (0 <? total)%Z eqn:E; [discriminate | apply Z.ltb_ge in E; lia].
Qed.

(** ** C1: report status *)

(** C1 (amended): the status is FAIL exactly when the violations list is
    non-empty, which is exactly when some finding is High and is not an
    ITAR-BOM-001 finding (those are filed as warnings); a run whose findings
    are all Medium or Low has status PASS. *)
Theorem status_fail_iff_filed_high : forall st file doc_type now,
  let rep := run st file doc_type now in
  (status rep = "FAIL" <-> report_violations rep <> []) /\
  (status rep = "FAIL" <->
     exists f, In f (report_violations rep ++ report_warnings rep)%list /\
               severity f = "HIGH" /\ rule f <> "ITAR-BOM-001") /\
  (Forall (fun f => severity f <> "HIGH") (report_violations rep ++ report_warnings rep)%list ->
   status rep = "PASS").
Proof.
  intros st file doc_type now rep.
  destruct (run_fields st file doc_type now) as (HV & HW & _ & HS & _).
  destruct (validate_document_ok st file doc_type now) as [OV OW].
  fold rep in HV, HW, HS.
  rewrite <- HV in OV, HS. rewrite <- HW in OW.
  assert (Hfail : status rep = "FAIL" <-> report_violations rep <> []).
  { rewrite HS. destruct (report_violations rep); split; intro H;
      [discriminate | congruence | discriminate | reflexivity]. }
  split; [exact Hfail | split].
  - rewrite Hfail. split.
    + intro Hne. destruct (report_violations rep) as [|f fs] eqn:E; [congruence |].
      inversion OV as [|? ? [Hsev Hrule] _]; subst.
      exists f. split; [left; reflexivity | split; assumption].
    + intros (f & Hin & Hsev & Hrule) Hnil. rewrite Hnil in Hin. simpl in Hin.
      rewrite Forall_forall in OW. destruct (OW f Hin); contradiction.
  - intro Hall. rewrite HS. destruct (report_violations rep) as [|f fs] eqn:E; [reflexivity |].
    inversion OV as [|? ? [Hsev _] _]; subst.
    inversion Hall; contradiction.
Qed.

(** C1: at the ITAR part number BOM the report has a High finding and
    status PASS. *)
Lemma status_pass_with_high_finding :
  let rep := run init_checker (bom_upload itar_part_bom) "bom" sample_now in
  status rep = "PASS" /\
  exists f, In f (report_violations rep ++ report_warnings rep)%list /\ severity f = "HIGH".
Proof.
  vm_compute. split; [reflexivity |].
  eexists. split; [left; reflexivity | reflexivity].
Qed.

(** ** C2: risk score *)

(** C2 (amended): the risk score is min(100, 15 x number of violations +
    5 x number of warnings), so it lies in 0..100, is monotone in the number
    of violations and is 100 from 7 violations on (7 and 8 both give 100). *)
Theorem risk_score_formula : forall st file doc_type now,
  let rep := run st file doc_type now in
  report_risk_score rep =
    Z.min 100 (15 * Z.of_nat (List.length (report_violations rep)) +
               5 * Z.of_nat (List.length (report_warnings rep)))%Z /\
  (0 <= report_risk_score rep <= 100)%Z /\
  (forall nv nv' nw, (nv <= nv')%nat -> (risk_of nv nw <= risk_of nv' nw)%Z) /\
  (forall nw, risk_of 7 nw = 100%Z /\ risk_of 8 nw = 100%Z).
Proof.
  intros st file doc_type now rep.
  destruct (run_fields st file doc_type now) as (HV & HW & HR & _ & _).
  fold rep in HV, HW, HR.
  split; [| split; [| split]].
  - rewrite HR, HV, HW. unfold risk_of. f_equal. lia.
  - rewrite HR. apply risk_of_bounds.
  - exact risk_of_monotone_high.
  - intro nw. split; apply risk_of_saturates; lia.
Qed.

(** C2: at the ITAR part number BOM the one finding is High, yet the score
    is 5, not min(100, 15 x 1 + 5 x 0). *)
Lemma risk_score_counts_high_warning_as_5 :
  let rep := run init_checker (bom_upload itar_part_bom) "bom" sample_now in
  let fs := (report_violations rep ++ report_warnings rep)%list in
  count_severity "HIGH" fs = 1%nat /\ List.length fs = 1%nat /\
  report_risk_score rep = 5%Z /\
  report_risk_score rep <>
    Z.min 100 (15 * Z.of_nat (count_severity "HIGH" fs) +
               5 * Z.of_nat (List.length fs - count_severity "HIGH" fs))%Z.
Proof. vm_compute. split; [reflexivity | split; [reflexivity | split; [reflexivity | discriminate]]]. Qed.

(** ** C3: estimated exposure *)

(** C3 (amended): the exposure string renders $50,000 per violation plus
    $5,000 per warning: "$X.YM potential exposure" above one million,
    "$<comma-grouped> potential exposure" when positive, and it is exactly
    "Minimal risk" when, and only when, there are no findings; a run with no
    findings has risk score 0 and status PASS. *)
Theorem estimated_exposure_rendering : forall st file doc_type now,
  let rep := run st file doc_type now in
  let total := (50000 * Z.of_nat (List.length (report_violations rep)) +
                5000 * Z.of_nat (List.length (report_warnings rep)))%Z in
  ((1000000 < total)%Z ->
     estimated_risk rep = "$" ++ format_millions_1f total ++ "M potential exposure") /\
  ((0 < total <= 1000000)%Z ->
     estimated_risk rep = "$" ++ comma_group total ++ " potential exposure") /\
  (estimated_risk rep = "Minimal risk" <-> (report_violations rep ++ report_warnings rep)%list = []) /\
  ((report_violations rep ++ report_warnings rep)%list = [] ->
     report_risk_score rep = 0%Z /\ status rep = "PASS").
Proof.
  intros st file doc_type now rep total.
  destruct (run_fields st file doc_type now) as (HV & HW & HR & HS & HE).
  fold rep in HV, HW, HR, HS, HE.
  rewrite <- HV, <- HW in HE, HR. rewrite <- HV in HS. clearbody rep.
  assert (HE' : estimated_risk rep = exposure_string total)
    by (rewrite HE; unfold total; f_equal; lia).
  split; [| split; [| split]].
  - intro H. rewrite HE'. unfold exposure_string.
    destruct (1000000 <? total)%Z eqn:E; [reflexivity | apply Z.ltb_ge in E; lia].
  - intro H. rewrite HE'. unfold exposure_string.
    destruct (1000000 <? total)%Z eqn:E; [apply Z.ltb_lt in E; lia |].
    destruct (0 <? total)%Z eqn:E'; [reflexivity | apply Z.ltb_ge in E'; lia].
  - split.
    + intro H. destruct (report_violations rep ++ report_warnings rep)%list as [|f fs] eqn:E;
        [reflexivity | exfalso].
      assert (Hpos : (0 < total)%Z).
      { unfold total. apply (f_equal (@List.length finding)) in E.
        rewrite length_app in E. simpl in E. lia. }
      rewrite HE' in H. exact (exposure_string_not_minimal total Hpos H).
    + intro H. apply app_eq_nil in H as [H1 H2].
      rewrite HE'. unfold total. rewrite H1, H2. reflexivity.
  - intro H. apply app_eq_nil in H as [H1 H2].
    rewrite HR, HS, H1, H2. split; reflexivity.
Qed.

(** C3: at the ITAR part number BOM the one finding is High, yet the
    exposure counts it at $5,000, not $50,000. *)
Lemma exposure_counts_high_warning_as_5000 :
  let rep := run init_checker (bom_upload itar_part_bom) "bom" sample_now in
  count_severity "HIGH" (report_violations rep ++ report_warnings rep)%list = 1%nat /\
  estimated_risk rep = "$5,000 potential exposure" /\
  estimated_risk rep <> exposure_string 50000.
Proof. vm_compute. split; [reflexivity | split; [reflexivity | discriminate]]. Qed.

(** ** The BOM path of a run *)

Lemma run_bom_sigs : forall st file now df,
  as_table file = Decoded df ->
  let rep := run st file "bom" now in
  map sig_of (report_violations rep) =
    rows_emit (bom_part_col df) (bom_material_col df) (bom_supplier_col df) true 0 (rows df) /\
  map sig_of (report_warnings rep) =
    rows_emit (bom_part_col df) (bom_material_col df) (bom_supplier_col df) false 0 (rows df).
Proof.
  intros st file now df H rep. subst rep. unfold run, validate_document; simpl.
  rewrite H. simpl. rewrite bom_rows_violations, bom_rows_warnings. split; reflexivity.
Qed.

(** ** C4: order of the BOM findings *)

(** C4 (amended): the BOM loop is row-major.  In each of the violations and
    warnings lists the findings come row by row in row order, and within a
    row in the fixed order of the loop body (ITAR-BOM-001, AS9100-MAT-002,
    AS9100-SUP-001, AS9100-DATA-001); the result does not depend on earlier
    calls, so the same input always gives the same order. *)
Theorem bom_findings_row_major : forall st st' file now now' df,
  as_table file = Decoded df ->
  let pc := bom_part_col df in
  let mc := bom_material_col df in
  let sc := bom_supplier_col df in
  let rep := run st file "bom" now in
  map sig_of (report_violations rep) =
    flat_map (fun p => row_emits pc mc sc true (fst p) (snd p)) (enum_from 0 (rows df)) /\
  map sig_of (report_warnings rep) =
    flat_map (fun p => row_emits pc mc sc false (fst p) (snd p)) (enum_from 0 (rows df)) /\
  report_violations rep = report_violations (run st' file "bom" now') /\
  report_warnings rep = report_warnings (run st' file "bom" now').
Proof.
  intros st st' file now now' df H pc mc sc rep.
  destruct (run_bom_sigs st file now df H) as [HV HW].
  split; [exact HV | split; [exact HW |]].
  subst rep. unfold run, validate_document; simpl. rewrite H. split; reflexivity.
Qed.

(** C4: with two rows that each have a restricted material and no part
    number, the violations alternate between the two rules. *)
Lemma bom_findings_interleave_rules :
  map (fun f => (rule f, location f))
    (report_violations (run init_checker (bom_upload two_bad_rows_bom) "bom" sample_now)) =
  [("AS9100-MAT-002", Some "Row 2, Part: nan"); ("AS9100-DATA-001", Some "Row 2");
   ("AS9100-MAT-002", Some "Row 3, Part: nan"); ("AS9100-DATA-001", Some "Row 3")].
Proof. vm_compute. reflexivity. Qed.

(** ** Findings of one rule *)

Lemma filter_rule_sig : forall id l,
  map sig_of (filter (fun f => String.eqb (rule f) id) l) =
  filter (fun s => String.eqb (fst (fst s)) id) (map sig_of l).
Proof.
  intros id l; induction l as [|f l IH]; simpl; [reflexivity |].
  destruct (String.eqb (rule f) id); simpl; rewrite IH; reflexivity.
Qed.

Lemma filter_row_emits : forall pc mc sc b i row r,
  filter (fun s => String.eqb (fst (fst s)) (bom_rule_id r)) (row_emits pc mc sc b i row) =
  if Bool.eqb (bom_rule_is_violation r) b && fires pc mc sc r row
  then [(bom_rule_id r, bom_rule_severity r, Some (bom_rule_location pc r i row))] else [].
Proof.
  intros pc mc sc b i row r.
  destruct r, b; unfold row_emits, bom_rule_order; cbn [flat_map];
    destruct (fires pc mc sc ItarBom row), (fires pc mc sc MatRestricted row),
             (fires pc mc sc SupUncertified row), (fires pc mc sc DataMissing row);
    reflexivity.
Qed.

Lemma filter_rows_emit : forall pc mc sc b r rs i,
  filter (fun s => String.eqb (fst (fst s)) (bom_rule_id r)) (rows_emit pc mc sc b i rs) =
  map (fun p => (bom_rule_id r, bom_rule_severity r, Some (bom_rule_location pc r (fst p) (snd p))))
    (filter (fun p => Bool.eqb (bom_rule_is_violation r) b && fires pc mc sc r (snd p))
       (enum_from i rs)).
Proof.
  intros pc mc sc b r rs; unfold rows_emit.
  induction rs as [|row rs IH]; intro i; simpl; [reflexivity |].
  rewrite filter_app, filter_row_emits, IH.
  destruct (Bool.eqb (bom_rule_is_violation r) b && fires pc mc sc r row); reflexivity.
Qed.

Lemma filter_false_nil : forall {A} (f : A -> bool) l,
  (forall x, f x = false) -> filter f l = [].
Proof.
  intros A f l H; induction l as [|x l IH]; simpl; [reflexivity | rewrite H; exact IH].
Qed.

Lemma filter_ext_eq : forall {A} (f g : A -> bool) l,
  (forall x, f x = g x) -> filter f l = filter g l.
Proof.
  intros A f g l H; induction l as [|x l IH]; simpl; [reflexivity | rewrite H, IH; reflexivity].
Qed.

(** The findings of one BOM rule, across both lists, in row order. *)
Lemma run_bom_rule_sigs : forall st file now df r,
  as_table file = Decoded df ->
  let pc := bom_part_col df in
  let rep := run st file "bom" now in
  map sig_of (filter (fun f => String.eqb (rule f) (bom_rule_id r))
                (report_violations rep ++ report_warnings rep)%list) =
  map (fun p => (bom_rule_id r, bom_rule_severity r, Some (bom_rule_location pc r (fst p) (snd p))))
    (filter (fun p => fires pc (bom_material_col df) (bom_supplier_col df) r (snd p))
       (enum_from 0 (rows df))).
Proof.
  intros st file now df r H pc rep.
  destruct (run_bom_sigs st file now df H) as [HV HW]. fold rep in HV, HW.
  rewrite filter_app, map_app, !filter_rule_sig, HV, HW, !filter_rows_emit, <- map_app.
  f_equal.
  destruct (bom_rule_is_violation r); simpl.
  - rewrite (filter_false_nil (fun _ : nat * list (string * cell) => false)) by reflexivity.
    rewrite app_nil_r. reflexivity.
  - rewrite (filter_false_nil (fun _ : nat * list (string * cell) => false)) by reflexivity.
    reflexivity.
Qed.

(** ** C7: row-scoped rules *)

(** C7: each row-scoped BOM rule yields one finding per row whose
    condition holds, in row order, located at "Row <position + 2>" (the
    0-based position plus one for 1-based counting and one for the header;
    AS9100-MAT-002 appends ", Part: <part number>"); in particular a 5-row BOM
    whose rows 2 and 4 lack part numbers gets exactly the missing part number
    findings at "Row 3" and "Row 5". *)
Theorem row_rule_fires_once_per_matching_row : forall st file now df r,
  as_table file = Decoded df ->
  let pc := bom_part_col df in
  let rep := run st file "bom" now in
  let hits := filter (fun f => String.eqb (rule f) (bom_rule_id r))
                (report_violations rep ++ report_warnings rep)%list in
  let matching := filter (fun p => fires pc (bom_material_col df) (bom_supplier_col df) r (snd p))
                    (enum_from 0 (rows df)) in
  List.length hits = List.length matching /\
  map location hits = map (fun p => Some (bom_rule_location pc r (fst p) (snd p))) matching /\
  (forall i, row_label i = "Row " ++ nat_to_dec (i + 1 + 1)) /\
  map location (filter (fun f => String.eqb (rule f) "AS9100-DATA-001")
    (report_violations (run init_checker (bom_upload five_row_bom) "bom" sample_now) ++
     report_warnings (run init_checker (bom_upload five_row_bom) "bom" sample_now))%list) =
    [Some "Row 3"; Some "Row 5"].
Proof.
  intros st file now df r H.
  pose proof (run_bom_rule_sigs st file now df r H) as E. cbv zeta in E |- *.
  split; [| split; [| split]].
  - rewrite <- (length_map sig_of), E, length_map. reflexivity.
  - rewrite <- (map_map sig_of snd), E, map_map. reflexivity.
  - intro i. unfold row_label. do 2 f_equal. lia.
  - vm_compute. reflexivity.
Qed.

(** ** Row labels *)

Lemma str_app_assoc : forall a b c : string, (a ++ b) ++ c = a ++ (b ++ c).
Proof. induction a as [|x a IH]; intros b c; simpl; [reflexivity | rewrite IH; reflexivity]. Qed.

Lemma comma_free_app : forall a b, comma_free (a ++ b) <-> comma_free a /\ comma_free b.
Proof.
  induction a as [|x a IH]; intro b; simpl; [tauto |]. rewrite IH. tauto.
Qed.

Lemma comma_free_uint : forall d, comma_free (NilEmpty.string_of_uint d).
Proof. induction d; simpl; repeat split; auto; discriminate. Qed.

Lemma comma_free_row_label : forall i, comma_free (row_label i).
Proof.
  intro i. unfold row_label, nat_to_dec, Z_to_dec. apply comma_free_app. split.
  - simpl. repeat split; discriminate.
  - destruct (Z.to_int _) as [d | d]; simpl; [apply comma_free_uint | split; [discriminate | apply comma_free_uint]].
Qed.

Lemma Z_to_dec_inj : forall a b, Z_to_dec a = Z_to_dec b -> a = b.
Proof.
  intros a b H. apply DecimalZ.to_int_inj.
  apply (f_equal NilEmpty.int_of_string) in H. unfold Z_to_dec in H.
  rewrite !NilEmpty.isi in H. congruence.
Qed.

Lemma row_label_inj : forall i j, row_label i = row_label j -> i = j.
Proof.
  intros i j H. unfold row_label in H. simpl in H.
  repeat match goal with H : String _ _ = String _ _ |- _ => injection H as H end.
  apply Z_to_dec_inj in H. lia.
Qed.

Lemma comma_split : forall a b x y,
  comma_free a -> comma_free b -> a ++ String "," x = b ++ String "," y -> a = b.
Proof.
  induction a as [|c a IH]; intros [|c' b] x y Ha Hb H; simpl in *.
  - reflexivity.
  - injection H as H1 _. destruct Hb as [Hb _]. congruence.
  - injection H as H1 _. destruct Ha as [Ha' _]. congruence.
  - injection H as H1 H. subst c'. f_equal. apply (IH b x y); tauto.
Qed.

Lemma prefix_app_inv : forall p s, prefix p s = true -> exists z, s = p ++ z.
Proof.
  induction p as [|c p IH]; intros [|c' s] H; simpl in *.
  - exists EmptyString; reflexivity.
  - exists (String c' s); reflexivity.
  - discriminate.
  - destruct (ascii_dec c c') as [-> |]; [| discriminate].
    destruct (IH s H) as [z ->]. exists z; reflexivity.
Qed.

Lemma prefix_app_self : forall p z, prefix p (p ++ z) = true.
Proof.
  induction p as [|c p IH]; intro z; simpl; [destruct z; reflexivity |].
  destruct (ascii_dec c c) as [_ | n]; [apply IH | contradiction].
Qed.

(** The AS9100-MAT-002 location of row [j] names row [i] exactly when [i = j]. *)
Lemma refers_mat_location : forall pc i j row,
  refers_loc i (Some (bom_rule_location pc MatRestricted j row)) = Nat.eqb j i.
Proof.
  intros pc i j row. unfold refers_loc, bom_rule_location.
  set (x := cell_str (row_get row pc (Some "Unknown"))).
  assert (E : row_label j ++ ", Part: " ++ x = row_label j ++ String "," (" Part: " ++ x))
    by reflexivity.
  assert (Hneq : String.eqb (row_label j ++ ", Part: " ++ x) (row_label i) = false).
  { apply String.eqb_neq. intro H. pose proof (comma_free_row_label i) as C.
    rewrite <- H, E in C. apply comma_free_app in C as [_ [C _]]. contradiction. }
  rewrite Hneq, orb_false_l.
  destruct (Nat.eqb j i) eqn:Eji.
  - apply Nat.eqb_eq in Eji; subst j.
    rewrite E. change (row_label i ++ ",") with (row_label i ++ String "," EmptyString).
    replace (row_label i ++ String "," (" Part: " ++ x))
      with ((row_label i ++ String "," EmptyString) ++ " Part: " ++ x)
      by (rewrite str_app_assoc; reflexivity).
    apply prefix_app_self.
  - destruct (prefix (row_label i ++ ",") (row_label j ++ ", Part: " ++ x)) eqn:P; [| reflexivity].
    apply prefix_app_inv in P as [z P].
    rewrite E, str_app_assoc in P. cbn [append] in P.
    apply comma_split in P; try apply comma_free_row_label.
    apply row_label_inj in P. apply Nat.eqb_neq in Eji. congruence.
Qed.

(** ** Filtering helpers *)

Lemma filter_and : forall {A} (f g : A -> bool) l,
  filter (fun x => f x && g x) l = filter g (filter f l).
Proof.
  intros A f g l; induction l as [|x l IH]; simpl; [reflexivity |].
  destruct (f x); simpl; [destruct (g x); simpl; rewrite IH; reflexivity | exact IH].
Qed.

Lemma map_filter_comm : forall {A B} (h : A -> B) (g : B -> bool) l,
  map h (filter (fun x => g (h x)) l) = filter g (map h l).
Proof.
  intros A B h g l; induction l as [|x l IH]; simpl; [reflexivity |].
  destruct (g (h x)); simpl; rewrite IH; reflexivity.
Qed.

Lemma map_eq_singleton : forall {A B} (h : A -> B) l y,
  map h l = [y] -> exists x, l = [x] /\ h x = y.
Proof.
  intros A B h [|x [|x' l]] y H; simpl in H; try discriminate.
  injection H as H. exists x. split; [reflexivity | exact H].
Qed.

Lemma filter_nil_in : forall {A} (f : A -> bool) l,
  (forall x, In x l -> f x = false) -> filter f l = [].
Proof.
  intros A f l; induction l as [|x l IH]; intro H; simpl; [reflexivity |].
  rewrite (H x (or_introl eq_refl)). apply IH. intros y Hy. apply H. right; exact Hy.
Qed.

Lemma enum_from_index_ge : forall {A} l k i (y : A), In (i, y) (enum_from k l) -> (k <= i)%nat.
Proof.
  intros A l; induction l as [|x l IH]; intros k i y H; simpl in H; [contradiction |].
  destruct H as [H | H]; [injection H as <- _; lia | apply IH in H; lia].
Qed.

Lemma filter_enum_index : forall {A} l k i (y : A),
  In (i, y) (enum_from k l) -> filter (fun p => Nat.eqb (fst p) i) (enum_from k l) = [(i, y)].
Proof.
  intros A l; induction l as [|x l IH]; intros k i y H; simpl in H |- *; [contradiction |].
  destruct H as [H | H].
  - injection H as -> ->. rewrite Nat.eqb_refl. f_equal.
    apply filter_nil_in. intros [j z] Hin. simpl. apply Nat.eqb_neq.
    apply enum_from_index_ge in Hin. lia.
  - pose proof (enum_from_index_ge l (S k) i y H).
    replace (Nat.eqb k i) with false by (symmetry; apply Nat.eqb_neq; lia).
    apply IH; exact H.
Qed.

Lemma ascii_upper_idem : forall c, ascii_upper (ascii_upper c) = ascii_upper c.
Proof. intros [[] [] [] [] [] [] [] []]; reflexivity. Qed.

Lemma upper_idem : forall s, upper (upper s) = upper s.
Proof.
  induction s as [|c s IH]; [reflexivity |].
  unfold upper in *; simpl. rewrite ascii_upper_idem, IH. reflexivity.
Qed.

Lemma row_get_present : forall row key d m,
  row_get row key None = Some m -> row_get row key d = Some m.
Proof.
  intros row [k|] d m H; simpl in *; [| discriminate].
  destruct (find _ row) as [[? v]|]; [exact H | discriminate].
Qed.

(** ** C9: restricted material in a BOM row *)

(** C9: a BOM row at position [i] whose material cell contains one of the
    restricted names (BERYLLIUM, CADMIUM, MERCURY, LEAD, CHROMIUM VI,
    ASBESTOS), compared in upper case, gets exactly one AS9100-MAT-002
    finding whose location names that row, and that finding is High. *)
Theorem restricted_material_row_one_finding : forall st file now df i row m,
  as_table file = Decoded df ->
  In (i, row) (enum_from 0 (rows df)) ->
  truthy (bom_material_col df) = true ->
  row_get row (bom_material_col df) None = Some m ->
  existsb (fun name => contains name (upper m))
    ["BERYLLIUM"; "CADMIUM"; "MERCURY"; "LEAD"; "CHROMIUM VI"; "ASBESTOS"] = true ->
  let rep := run st file "bom" now in
  exists f,
    filter (fun f => String.eqb (rule f) "AS9100-MAT-002" && refers_to_row i f)
      (report_violations rep ++ report_warnings rep)%list = [f] /\
    severity f = "HIGH".
Proof.
  intros st file now df i row m Hdf Hin Hcol Hcell Hname rep.
  set (pc := bom_part_col df) in *. set (mc := bom_material_col df) in *.
  set (sc := bom_supplier_col df) in *.
  assert (Hfire : fires pc mc sc MatRestricted row = true).
  { simpl. rewrite Hcol, Hcell, (row_get_present row mc (Some "") m Hcell). simpl.
    unfold is_restricted_material. rewrite upper_idem. exact Hname. }
  pose proof (run_bom_rule_sigs st file now df MatRestricted Hdf) as E.
  cbv zeta in E. fold rep pc mc sc in E. simpl bom_rule_id in E.
  rewrite (filter_and (fun f => String.eqb (rule f) "AS9100-MAT-002") (refers_to_row i)).
  set (hits := filter (fun f => String.eqb (rule f) "AS9100-MAT-002") _) in *.
  assert (Hs : map sig_of (filter (refers_to_row i) hits) =
               [("AS9100-MAT-002", "HIGH", Some (bom_rule_location pc MatRestricted i row))]).
  { change (refers_to_row i) with (fun f => (fun s => refers_loc i (snd s)) (sig_of f)).
    rewrite map_filter_comm, E, <- map_filter_comm. cbn beta.
    rewrite (filter_ext_eq _ (fun p => Nat.eqb (fst p) i))
      by (intros [j y]; apply refers_mat_location).
    rewrite <- (filter_and (fun p => fires pc mc sc MatRestricted (snd p)) (fun p => Nat.eqb (fst p) i)).
    rewrite (filter_ext_eq _ (fun p => Nat.eqb (fst p) i && fires pc mc sc MatRestricted (snd p)))
      by (intro p; apply andb_comm).
    rewrite (filter_and (fun p => Nat.eqb (fst p) i) (fun p => fires pc mc sc MatRestricted (snd p))).
    rewrite (filter_enum_index _ 0 i row Hin). cbn [filter snd]. rewrite Hfire. reflexivity. }
  apply map_eq_singleton in Hs as [f [Hf Hsig]].
  exists f. split; [exact Hf |]. unfold sig_of in Hsig. congruence.
Qed.

(** ** C10: ITAR-indicating part numbers *)

(** C10: a BOM row whose part number, upper-cased, contains MIL-, MS, NAS,
    AN or CAGE (so "PANEL" matches through AN) gets a HIGH ITAR-BOM-001
    finding in the warnings list; no ITAR-BOM-001 finding is ever a
    violation, the score counts warnings at 5 points, and the status only
    looks at violations. *)
Theorem itar_part_filed_as_warning : forall st file now df i row,
  as_table file = Decoded df ->
  In (i, row) (enum_from 0 (rows df)) ->
  truthy (bom_part_col df) = true ->
  existsb (fun indicator => contains indicator (upper (cell_str (row_get row (bom_part_col df) (Some "")))))
    ["MIL-"; "MS"; "NAS"; "AN"; "CAGE"] = true ->
  let rep := run st file "bom" now in
  In ("ITAR-BOM-001", "HIGH", Some (row_label i)) (map sig_of (report_warnings rep)) /\
  ~ In "ITAR-BOM-001" (map rule (report_violations rep)) /\
  report_risk_score rep =
    Z.min 100 (15 * Z.of_nat (List.length (report_violations rep)) +
               5 * Z.of_nat (List.length (report_warnings rep)))%Z /\
  (status rep = "FAIL" <-> report_violations rep <> []) /\
  is_itar_controlled "PANEL" = true.
Proof.
  intros st file now df i row Hdf Hin Hcol Hpart rep.
  destruct (run_bom_sigs st file now df Hdf) as [_ HW]. fold rep in HW.
  destruct (run_fields st file "bom" now) as (HV' & HW' & HR & HS & _). fold rep in HV', HW', HR, HS.
  destruct (validate_document_ok st file "bom" now) as [OV _].
  rewrite <- HV' in OV, HS. rewrite <- HV', <- HW' in HR.
  split; [| split; [| split; [| split]]].
  - rewrite HW. unfold rows_emit. apply in_flat_map. exists (i, row). split; [exact Hin |].
    unfold row_emits, bom_rule_order. cbn [flat_map]. apply in_or_app. left.
    assert (Hfire : fires (bom_part_col df) (bom_material_col df) (bom_supplier_col df) ItarBom row = true)
      by (cbn [fires]; rewrite Hcol; exact Hpart).
    cbn [fst snd]. rewrite Hfire. left. reflexivity.
  - intro H. apply in_map_iff in H as (f & Hrule & Hf).
    rewrite Forall_forall in OV. destruct (OV f Hf) as [_ Hn]. contradiction.
  - rewrite HR. unfold risk_of. f_equal. lia.
  - rewrite HS. destruct (report_violations rep); split; intro H;
      [discriminate | congruence | discriminate | reflexivity].
  - reflexivity.
Qed.

(** ** C5: undecodable uploads *)

(** C5 (amended): when the decoder raises, the run still returns a full
    report with no violations and exactly one SYSTEM warning: on the drawing
    path it is Low with fix "Manual review recommended", on the BOM path it
    is Medium with fix "Check file format and structure"; either way the
    status is PASS, the score 5 and the exposure "$5,000 potential exposure". *)
Theorem decode_failure_single_warning : forall st file now,
  (forall msg, as_pdf file = DecodeError msg ->
   let rep := run st file "drawing" now in
   report_violations rep = [] /\
   map (fun f => (rule f, severity f, fix_text f)) (report_warnings rep) =
     [("SYSTEM", "LOW", "Manual review recommended")] /\
   status rep = "PASS" /\ report_risk_score rep = 5%Z /\
   estimated_risk rep = "$5,000 potential exposure") /\
  (forall msg, as_table file = DecodeError msg ->
   let rep := run st file "bom" now in
   report_violations rep = [] /\
   map (fun f => (rule f, severity f, fix_text f)) (report_warnings rep) =
     [("SYSTEM", "MEDIUM", "Check file format and structure")] /\
   status rep = "PASS" /\ report_risk_score rep = 5%Z /\
   estimated_risk rep = "$5,000 potential exposure").
Proof.
  intros st file now. split; intros msg H;
    unfold run, validate_document; simpl; rewrite H; vm_compute;
    repeat split; reflexivity.
Qed.

(** C5: on the BOM path an undecodable file gives a Medium warning, not a
    Low manual-review one. *)
Lemma bom_decode_failure_is_medium :
  let rep := run init_checker (mk_upload (DecodeError "EOF marker not found")
                                        (DecodeError "Error tokenizing data")) "bom" sample_now in
  report_violations rep = [] /\
  map (fun f => (severity f, fix_text f)) (report_warnings rep) =
    [("MEDIUM", "Check file format and structure")].
Proof. vm_compute. split; reflexivity. Qed.

(** ** C8: letter case of the drawing text *)

Lemma restricted_fold_rules : forall ms st,
  map rule (violations (fold_left (fun s material =>
      add_violation (mk_finding "AS9100-MAT-001"
        ("Restricted material detected: " ++ material) "HIGH"
        ("Replace " ++ material ++ " with approved alternative")
        (Some "Potential rejection of entire batch") None) s) ms st)) =
  (map rule (violations st) ++ map (fun _ => "AS9100-MAT-001") ms)%list.
Proof.
  induction ms as [|m ms IH]; intro st; simpl; [rewrite app_nil_r; reflexivity |].
  rewrite IH. simpl. rewrite map_app, <- app_assoc. reflexivity.
Qed.

(** C8 (amended): the export-marking flag, the traceability flag and the
    restricted-material list of a drawing only depend on the lower-cased
    text, so the violations do not change with the letter case of the text
    (the revision flag is a case-sensitive regular expression and can
    change); a text containing "itar" in any case sets the export-marking
    flag and the run reports no ITAR-001 violation. *)
Theorem drawing_markers_case_insensitive :
  (forall t1 t2, lower t1 = lower t2 ->
   check_itar_marking t1 = check_itar_marking t2 /\
   check_traceability t1 = check_traceability t2 /\
   check_restricted_materials t1 = check_restricted_materials t2 /\
   (forall st, violations (drawing_checks t1 st) = violations (drawing_checks t2 st))) /\
  (forall st file pages now,
   as_pdf file = Decoded pages ->
   contains "itar" (lower (extract_pdf_text pages)) = true ->
   check_itar_marking (extract_pdf_text pages) = true /\
   ~ In "ITAR-001" (map rule (report_violations (run st file "drawing" now)))).
Proof.
  split.
  - intros t1 t2 E.
    assert (Hi : check_itar_marking t1 = check_itar_marking t2)
      by (unfold check_itar_marking, any_keyword_in; rewrite E; reflexivity).
    assert (Ht : check_traceability t1 = check_traceability t2)
      by (unfold check_traceability, any_keyword_in; rewrite E; reflexivity).
    assert (Hm : check_restricted_materials t1 = check_restricted_materials t2)
      by (unfold check_restricted_materials; rewrite E; reflexivity).
    split; [exact Hi | split; [exact Ht | split; [exact Hm |]]].
    intro st. unfold drawing_checks. rewrite Hi, Ht, Hm.
    destruct (check_revision_marking t1), (check_revision_marking t2),
             (check_itar_marking t2), (check_traceability t2); reflexivity.
  - intros st file pages now Hpdf Hitar.
    set (text := extract_pdf_text pages) in *.
    assert (Hi : check_itar_marking text = true).
    { unfold check_itar_marking, any_keyword_in, itar_keywords. cbn [existsb].
      change (lower "ITAR") with "itar". rewrite Hitar. reflexivity. }
    split; [exact Hi |].
    unfold run, validate_document; simpl. rewrite Hpdf. simpl. fold text.
    unfold drawing_checks. rewrite Hi. simpl negb. cbv iota.
    intro H.
    destruct (check_revision_marking text), (check_traceability text); cbn in H;
      rewrite ?map_app, restricted_fold_rules in H; simpl in H;
      repeat (apply in_app_or in H; destruct H as [H | H]);
      try (apply in_map_iff in H as (? & H & _); discriminate);
      simpl in H; intuition discriminate.
Qed.

(** C8: "Rev A" and "REV A" differ only in letter case, yet only the first
    carries a revision mark, so only the second run gets AS9100-DOC-002. *)
Lemma revision_mark_case_sensitive :
  lower "Rev A" = lower "REV A" /\
  check_revision_marking "Rev A" = true /\ check_revision_marking "REV A" = false /\
  map rule (report_warnings (run init_checker (drawing_upload ["Rev A"]) "drawing" sample_now)) = [] /\
  map rule (report_warnings (run init_checker (drawing_upload ["REV A"]) "drawing" sample_now)) =
    ["AS9100-DOC-002"].
Proof. vm_compute. repeat split. Qed.

(** ** Findings do not depend on the score or the item count *)

Lemma add_violation_same : forall f st st',
  same_findings st st' -> same_findings (add_violation f st) (add_violation f st').
Proof. intros f st st' [HV HW]. split; simpl; congruence. Qed.

Lemma add_warning_same : forall f st st',
  same_findings st st' -> same_findings (add_warning f st) (add_warning f st').
Proof. intros f st st' [HV HW]. split; simpl; congruence. Qed.

Create HintDb findings.
#[local] Hint Resolve add_violation_same add_warning_same : findings.

Lemma fold_left_same : forall {A} (g : checker -> A -> checker) xs st st',
  (forall s s' x, same_findings s s' -> same_findings (g s x) (g s' x)) ->
  same_findings st st' -> same_findings (fold_left g xs st) (fold_left g xs st').
Proof.
  intros A g xs; induction xs as [|x xs IH]; intros st st' Hg H; simpl; auto.
Qed.

Lemma drawing_checks_same : forall text st st',
  same_findings st st' -> same_findings (drawing_checks text st) (drawing_checks text st').
Proof.
  intros text st st' H. unfold drawing_checks.
  destruct (negb (check_itar_marking text)), (negb (check_revision_marking text)),
           (negb (check_traceability text));
    repeat (apply add_violation_same || apply add_warning_same);
    apply fold_left_same; auto with findings.
Qed.

Lemma bom_row_same : forall pc mc sc idx row st st',
  same_findings st st' -> same_findings (bom_row pc mc sc idx row st) (bom_row pc mc sc idx row st').
Proof.
  intros pc mc sc idx row st st' H. unfold bom_row; simpl.
  destruct (truthy pc && is_itar_controlled _);
  destruct (truthy mc && notna _);
  try destruct (is_restricted_material _);
  destruct (truthy sc && notna _);
  try destruct (is_certified_supplier _);
  destruct (truthy pc && negb _); simpl; auto 10 with findings.
Qed.

Lemma bom_rows_same : forall pc mc sc rs idx st st',
  same_findings st st' -> same_findings (bom_rows pc mc sc idx rs st) (bom_rows pc mc sc idx rs st').
Proof.
  intros pc mc sc rs; induction rs as [|row rs IH]; intros idx st st' H; simpl;
    [exact H | apply IH, bom_row_same, H].
Qed.

Lemma validate_bom_same : forall t st st',
  same_findings st st' -> same_findings (validate_bom st t) (validate_bom st' t).
Proof.
  intros [df | msg] st st' H; simpl; [apply bom_rows_same; exact H | auto with findings].
Qed.

Lemma validate_technical_drawing_same : forall p st st',
  same_findings st st' ->
  same_findings (validate_technical_drawing st p) (validate_technical_drawing st' p).
Proof.
  intros [pages | msg] st st' H; simpl; [apply drawing_checks_same; exact H | auto with findings].
Qed.

(** ** C6: independence from earlier calls *)

(** C6: two runs on the same file and document type give the same
    violations, warnings, status, risk score and summary, whatever state
    earlier calls left in the checker and whatever the time. *)
Theorem validate_document_ignores_prior_state : forall st1 st2 file doc_type now1 now2,
  let r1 := run st1 file doc_type now1 in
  let r2 := run st2 file doc_type now2 in
  report_violations r1 = report_violations r2 /\
  report_warnings r1 = report_warnings r2 /\
  status r1 = status r2 /\
  report_risk_score r1 = report_risk_score r2 /\
  total_violations r1 = total_violations r2 /\
  total_warnings r1 = total_warnings r2 /\
  estimated_risk r1 = estimated_risk r2.
Proof.
  intros st1 st2 file doc_type now1 now2 r1 r2.
  assert (H : same_findings (fst (validate_document st1 file doc_type now1))
                            (fst (validate_document st2 file doc_type now2))).
  { unfold validate_document; simpl.
    assert (H0 : same_findings (mk_checker [] [] 0%Z (checked_items st1))
                               (mk_checker [] [] 0%Z (checked_items st2)))
      by (split; reflexivity).
    destruct (String.eqb doc_type "drawing"); [| destruct (String.eqb doc_type "bom")];
      [ pose proof (validate_technical_drawing_same (as_pdf file) _ _ H0) as [HV HW]
      | pose proof (validate_bom_same (as_table file) _ _ H0) as [HV HW]
      | destruct H0 as [HV HW] ];
      split; simpl; assumption. }
  destruct H as [HV HW]. subst r1 r2. unfold run.
  destruct (validate_document st1 file doc_type now1) as [s1 rep1] eqn:E1.
  destruct (validate_document st2 file doc_type now2) as [s2 rep2] eqn:E2.
  unfold validate_document in E1, E2.
  injection E1 as <- <-. injection E2 as <- <-. simpl in HV, HW |- *.
  unfold calculate_risk_cost; simpl. rewrite HV, HW.
  repeat split; reflexivity.
Qed.

(** The item count is not reset: a drawing run after a BOM run reports the
    BOM's row count. *)
Lemma checked_items_carried_over :
  let st := fst (validate_document init_checker (bom_upload two_bad_rows_bom) "bom" sample_now) in
  report_checked_items (run st (drawing_upload ["ITAR Rev A serial number"]) "drawing" sample_now) = 2%nat.
Proof. vm_compute. reflexivity. Qed.

(** * Witnesses *)

Lemma status_fail_iff_filed_high_witness :
  status (run init_checker (bom_upload supplier_only_bom) "bom" sample_now) = "PASS".
Proof.
  destruct (status_fail_iff_filed_high init_checker (bom_upload supplier_only_bom) "bom" sample_now)
    as (_ & _ & H).
  apply H. vm_compute. repeat constructor. discriminate.
Defined.

Lemma risk_score_formula_witness :
  (risk_of 3 2 <= risk_of 5 2)%Z /\
  report_risk_score (run init_checker (bom_upload two_bad_rows_bom) "bom" sample_now) = 70%Z.
Proof.
  destruct (risk_score_formula init_checker (bom_upload two_bad_rows_bom) "bom" sample_now)
    as (H & _ & Hmono & _).
  split; [apply Hmono; lia | rewrite H; vm_compute; reflexivity].
Defined.

Lemma estimated_exposure_rendering_witness :
  estimated_risk (run init_checker (bom_upload missing_parts_bom) "bom" sample_now) =
    "$1.2M potential exposure".
Proof.
  destruct (estimated_exposure_rendering init_checker (bom_upload missing_parts_bom) "bom" sample_now)
    as (H & _ & _ & _).
  rewrite H; vm_compute; reflexivity.
Defined.

Lemma bom_findings_row_major_witness :
  map sig_of (report_violations (run init_checker (bom_upload two_bad_rows_bom) "bom" sample_now)) =
  flat_map (fun p => row_emits (bom_part_col two_bad_rows_bom) (bom_material_col two_bad_rows_bom)
                       (bom_supplier_col two_bad_rows_bom) true (fst p) (snd p))
    (enum_from 0 (rows two_bad_rows_bom)).
Proof.
  exact (proj1 (bom_findings_row_major init_checker init_checker (bom_upload two_bad_rows_bom)
                  sample_now sample_now two_bad_rows_bom eq_refl)).
Defined.

Lemma decode_failure_single_warning_witness :
  let u := mk_upload (DecodeError "EOF marker not found") (DecodeError "Error tokenizing data") in
  status (run init_checker u "drawing" sample_now) = "PASS" /\
  status (run init_checker u "bom" sample_now) = "PASS".
Proof.
  intro u.
  destruct (decode_failure_single_warning init_checker u sample_now) as [Hd Hb].
  split.
  - apply (Hd "EOF marker not found"); reflexivity.
  - apply (Hb "Error tokenizing data"); reflexivity.
Defined.

Lemma drawing_markers_case_insensitive_witness :
  check_itar_marking "ITAR Note" = check_itar_marking "itar NOTE" /\
  ~ In "ITAR-001" (map rule (report_violations
      (run init_checker (drawing_upload ["Export: iTaR controlled"]) "drawing" sample_now))).
Proof.
  destruct drawing_markers_case_insensitive as [H1 H2]. split.
  - apply (H1 "ITAR Note" "itar NOTE"). reflexivity.
  - apply (H2 init_checker (drawing_upload ["Export: iTaR controlled"]) ["Export: iTaR controlled"]
             sample_now); reflexivity.
Defined.

Lemma row_rule_fires_once_per_matching_row_witness :
  List.length (filter (fun f => String.eqb (rule f) (bom_rule_id DataMissing))
    (report_violations (run init_checker (bom_upload five_row_bom) "bom" sample_now) ++
     report_warnings (run init_checker (bom_upload five_row_bom) "bom" sample_now))%list) =
  List.length (filter (fun p => fires (bom_part_col five_row_bom) (bom_material_col five_row_bom)
                                  (bom_supplier_col five_row_bom) DataMissing (snd p))
                 (enum_from 0 (rows five_row_bom))).
Proof.
  exact (proj1 (row_rule_fires_once_per_matching_row init_checker (bom_upload five_row_bom)
                  sample_now five_row_bom DataMissing eq_refl)).
Defined.

Lemma restricted_material_row_one_finding_witness :
  exists f,
    filter (fun f => String.eqb (rule f) "AS9100-MAT-002" && refers_to_row 0 f)
      (report_violations (run init_checker (bom_upload cadmium_bom) "bom" sample_now) ++
       report_warnings (run init_checker (bom_upload cadmium_bom) "bom" sample_now))%list = [f] /\
    severity f = "HIGH".
Proof.
  apply (restricted_material_row_one_finding init_checker (bom_upload cadmium_bom) sample_now
           cadmium_bom 0
           [("Part Number", Some "BRKT-22"); ("Material", Some "Cadmium Plating 0.002in")]
           "Cadmium Plating 0.002in").
  - reflexivity.
  - simpl. left. reflexivity.
  - reflexivity.
  - reflexivity.
  - vm_compute. reflexivity.
Defined.

Lemma itar_part_filed_as_warning_witness :
  In ("ITAR-BOM-001", "HIGH", Some "Row 2")
     (map sig_of (report_warnings (run init_checker (bom_upload panel_bom) "bom" sample_now))).
Proof.
  apply (itar_part_filed_as_warning init_checker (bom_upload panel_bom) sample_now panel_bom 0
           [("Part", Some "PANEL-7")]).
  - reflexivity.
  - simpl. left. reflexivity.
  - reflexivity.
  - vm_compute. reflexivity.
Defined.


(** * Further properties *)

(** ** [ComplianceEngine.calculate_risk_score] *)

Lemma fold_left_sub_const : forall {A} (k : Z) (l : list A) b,
  fold_left (fun s _ => (s - k)%Z) l b = (b - k * Z.of_nat (List.length l))%Z.
Proof.
  intros A k l; induction l as [|x l IH]; intro b; simpl; [lia |].
  rewrite IH. lia.
Qed.

(** The engine's score counts down from 100 where [validate_document]'s
    score counts up: for the same findings the two add up to 100, the
    engine's score stays in [0, 100] and is 0 exactly when
    [15 * |violations| + 5 * |warnings|] reaches 100. *)
Theorem engine_score_complements_app_score : forall {A B} (vs : list A) (ws : list B),
  calculate_risk_score vs ws = (100 - risk_of (List.length vs) (List.length ws))%Z /\
  (0 <= calculate_risk_score vs ws <= 100)%Z /\
  (calculate_risk_score vs ws = 0%Z <->
   (100 <= 15 * Z.of_nat (List.length vs) + 5 * Z.of_nat (List.length ws))%Z).
Proof.
  intros A B vs ws. unfold calculate_risk_score, risk_of. rewrite !fold_left_sub_const.
  split; [lia | split; [lia |]]. split; intro H; lia.
Qed.

(** ** [ComplianceEngine.check] and its checkers *)

(** [check] answers with the empty result for every standard other than
    "as9100" and "itar": for "far", whose checker is a stub, and for any
    other name, the comparison being case-sensitive. *)
Theorem check_other_standards_empty : forall data standard,
  standard <> "as9100" -> standard <> "itar" -> check data standard = empty_result.
Proof.
  intros data standard H1 H2. unfold check.
  apply String.eqb_neq in H1, H2. rewrite H1, H2.
  destruct (String.eqb standard "far"); reflexivity.
Qed.

(** Without a ['materials'] key [check_as9100] finds nothing; without a
    ['raw_text'] key neither does [check_itar]. *)
Theorem engine_missing_keys_empty : forall data,
  (data_materials data = None -> check_as9100 data = empty_result) /\
  (data_raw_text data = None -> check_itar data = empty_result).
Proof.
  intro data. split; intro H; [unfold check_as9100 | unfold check_itar]; rewrite H; reflexivity.
Qed.


Lemma as9100_material_step_eq : forall vs ws material,
  as9100_material_step (vs, ws) material =
  ((vs ++ as9100_violation_of material)%list, (ws ++ as9100_warning_of material)%list).
Proof.
  intros vs ws material. unfold as9100_material_step, as9100_violation_of, as9100_warning_of.
  cbn [fold_left as9100_restricted_materials r_material r_severity r_restriction r_reference].
  change (lower "beryllium copper") with "beryllium copper".
  change (lower "cadmium") with "cadmium".
  destruct (contains "beryllium copper" (lower material)), (contains "cadmium" (lower material));
    cbn; rewrite ?app_nil_r; reflexivity.
Qed.

Lemma as9100_fold_eq : forall materials vs ws,
  fold_left as9100_material_step materials (vs, ws) =
  ((vs ++ flat_map as9100_violation_of materials)%list,
   (ws ++ flat_map as9100_warning_of materials)%list).
Proof.
  induction materials as [|m ms IH]; intros vs ws; simpl.
  - rewrite !app_nil_r. reflexivity.
  - rewrite as9100_material_step_eq, IH, <- !app_assoc. reflexivity.
Qed.

Lemma length_flat_map_filter : forall {A B} (p : A -> bool) (g : A -> B) l,
  List.length (flat_map (fun x => if p x then [g x] else []) l) = List.length (filter p l).
Proof.
  intros A B p g l; induction l as [|x l IH]; simpl; [reflexivity |].
  destruct (p x); simpl; rewrite IH; reflexivity.
Qed.

(** [check_as9100] on a materials list: one "Restricted Material" violation
    per material naming beryllium copper (in any letter case), located at
    that material, in list order; one "Material Warning" per material
    naming cadmium; and the high-priority recommendation exactly when more
    than three materials name beryllium copper. *)
Theorem as9100_findings_per_material : forall data materials,
  data_materials data = Some materials ->
  let r := check_as9100 data in
  let bc := filter (fun m => contains "beryllium copper" (lower m)) materials in
  map issue_location (res_violations r) = map Some bc /\
  Forall (fun v => issue_type v = "Restricted Material") (res_violations r) /\
  List.length (res_warnings r) = List.length (filter (fun m => contains "cadmium" (lower m)) materials) /\
  (res_recommendations r <> [] <-> (3 < List.length bc)%nat) /\
  (List.length (res_recommendations r) <= 1)%nat.
Proof.
  intros data materials H r bc.
  assert (E : r = mk_check_result (flat_map as9100_violation_of materials)
                    (flat_map as9100_warning_of materials)
                    (if Nat.ltb 3 (List.length (flat_map as9100_violation_of materials)) then
                       [mk_recommendation "high"
                          "Multiple AS9100 violations found. Recommend full compliance review."
                          "Schedule compliance audit with quality team"] else [])).
  { subst r. unfold check_as9100. rewrite H, as9100_fold_eq. reflexivity. }
  assert (Lv : List.length (flat_map as9100_violation_of materials) = List.length bc)
    by (apply (length_flat_map_filter (fun m => contains "beryllium copper" (lower m))
                 (fun m => mk_issue "Restricted Material"
                    "Found beryllium copper: Prohibited in crew compartments"
                    "AS9100D Section 8.5.1" (Some m) None))).
  rewrite E; cbn [res_violations res_warnings res_recommendations]. subst bc.
  split; [| split; [| split; [| split]]].
  - clear E Lv r H. induction materials as [|m ms IH]; [reflexivity |].
    cbn [flat_map filter]. rewrite map_app. unfold as9100_violation_of at 1.
    destruct (contains "beryllium copper" (lower m)); simpl; [f_equal |]; apply IH.
  - clear E Lv r H. induction materials as [|m ms IH]; [constructor |].
    cbn [flat_map]. apply Forall_app. split; [| apply IH].
    unfold as9100_violation_of. destruct (contains _ _); repeat constructor.
  - apply (length_flat_map_filter (fun m => contains "cadmium" (lower m))
             (fun _ => mk_issue "Material Warning" "Found cadmium: Requires special handling and disposal"
                         "Environmental compliance" None None)).
  - clear E. rewrite Lv. destruct (Nat.ltb 3 _) eqn:L; [apply Nat.ltb_lt in L | apply Nat.ltb_ge in L];
      split; intro X.
    + lia.
    + discriminate.
    + exfalso; apply X; reflexivity.
    + exfalso; lia.
  - destruct (Nat.ltb 3 _); simpl; lia.
Qed.

Lemma existsb_map_fn : forall {A B} (f : B -> bool) (g : A -> B) l,
  existsb (fun x => f (g x)) l = existsb f (map g l).
Proof. intros A B f g l; induction l as [|x l IH]; simpl; [reflexivity | rewrite IH; reflexivity]. Qed.

Lemma lower_itar_keywords_to_check : map lower itar_keywords_to_check = itar_keywords_to_check.
Proof. reflexivity. Qed.

(** [check_itar] never files a warning or a recommendation and files at
    most one violation: exactly when there is a raw text whose lower-cased
    form has none of the markers "itar", "export controlled", "technical
    data" but has one of the trigger words. *)
Theorem itar_check_single_violation : forall data,
  let r := check_itar data in
  res_warnings r = [] /\ res_recommendations r = [] /\
  (List.length (res_violations r) <= 1)%nat /\
  (res_violations r <> [] <->
   exists raw_text, data_raw_text data = Some raw_text /\
     existsb (fun marker => contains marker (lower raw_text))
       ["itar"; "export controlled"; "technical data"] = false /\
     existsb (fun keyword => contains keyword (lower raw_text)) itar_keywords_to_check = true).
Proof.
  intros data r. subst r. unfold check_itar.
  destruct (data_raw_text data) as [t|]; cbn [res_warnings res_recommendations res_violations].
  - cbv zeta.
    rewrite (existsb_map_fn (fun k => contains k (lower t)) lower), lower_itar_keywords_to_check.
    destruct (existsb (fun marker => contains marker (lower t)) _) eqn:M;
      destruct (existsb (fun k => contains k (lower t)) itar_keywords_to_check) eqn:K;
      cbn [negb]; repeat split; cbn [List.length]; try lia;
      first [ intro X; exfalso; apply X; reflexivity
            | intros (t' & E & M' & K'); injection E as <-; congruence
            | intros _; exists t; auto
            | intros _; discriminate ].
  - repeat split; cbn [List.length]; try lia.
    + intro X; exfalso; apply X; reflexivity.
    + intros (t' & E & _). discriminate.
Qed.

(** [check_itar] only looks at the lower-cased text: raw texts that differ
    in letter case give the same result. *)
Theorem itar_check_ignores_letter_case : forall d1 d2,
  option_map lower (data_raw_text d1) = option_map lower (data_raw_text d2) ->
  check_itar d1 = check_itar d2.
Proof.
  intros d1 d2 H. unfold check_itar.
  destruct (data_raw_text d1) as [t1|], (data_raw_text d2) as [t2|]; simpl in H;
    try discriminate; [injection H as H; rewrite H |]; reflexivity.
Qed.

(** ** The item count of a run *)

Lemma restricted_fold_items : forall ms st,
  checked_items (fold_left (fun s material =>
      add_violation (mk_finding "AS9100-MAT-001"
        ("Restricted material detected: " ++ material) "HIGH"
        ("Replace " ++ material ++ " with approved alternative")
        (Some "Potential rejection of entire batch") None) s) ms st) = checked_items st.
Proof. induction ms as [|m ms IH]; intro st; cbn [fold_left]; [reflexivity | rewrite IH; reflexivity]. Qed.

Lemma drawing_checks_items : forall text st,
  checked_items (drawing_checks text st) = checked_items st.
Proof.
  intros text st. unfold drawing_checks.
  destruct (negb (check_itar_marking text)), (negb (check_revision_marking text)),
           (negb (check_traceability text));
    cbn [add_violation add_warning checked_items]; rewrite restricted_fold_items; reflexivity.
Qed.

Lemma bom_rows_items : forall pc mc sc rs idx st,
  checked_items (bom_rows pc mc sc idx rs st) = checked_items st.
Proof.
  intros pc mc sc rs; induction rs as [|row rs IH]; intros idx st; simpl; [reflexivity |].
  rewrite IH. apply bom_row_checked_items.
Qed.

Lemma validate_document_items : forall st file doc_type now,
  checked_items (fst (validate_document st file doc_type now)) =
  if String.eqb doc_type "bom" then
    match as_table file with
    | Decoded df => List.length (rows df)
    | DecodeError _ => checked_items st
    end
  else checked_items st.
Proof.
  intros st file doc_type now. unfold validate_document; cbn [fst checked_items].
  destruct (String.eqb doc_type "drawing") eqn:D.
  - apply String.eqb_eq in D; subst doc_type. cbn -[validate_technical_drawing].
    destruct (as_pdf file) as [pages | msg]; simpl; [rewrite drawing_checks_items; reflexivity | reflexivity].
  - destruct (String.eqb doc_type "bom"); [| reflexivity].
    destruct (as_table file) as [df | msg]; simpl; [rewrite bom_rows_items; reflexivity | reflexivity].
Qed.

(** The [checked_items] a report gives: the row count of the table on a
    decoded BOM; otherwise (a drawing, an undecodable BOM, an unknown
    document type) whatever the checker held before the call, since
    [validate_document] does not reset it. *)
Theorem checked_items_of_run : forall st file doc_type now,
  report_checked_items (run st file doc_type now) =
  if String.eqb doc_type "bom" then
    match as_table file with
    | Decoded df => List.length (rows df)
    | DecodeError _ => checked_items st
    end
  else checked_items st.
Proof.
  intros st file doc_type now.
  rewrite <- (validate_document_items st file doc_type now). unfold run, validate_document. reflexivity.
Qed.

(** ** Unknown document types *)

(** A document type other than "drawing" and "bom" (the comparison is
    case-sensitive, so "BOM" is one) runs no check at all: the report
    passes with no findings, score 0 and "Minimal risk", whatever the file
    holds. *)
Theorem unknown_doc_type_passes : forall st file doc_type now,
  doc_type <> "drawing" -> doc_type <> "bom" ->
  let rep := run st file doc_type now in
  status rep = "PASS" /\ report_violations rep = [] /\ report_warnings rep = [] /\
  report_risk_score rep = 0%Z /\ estimated_risk rep = "Minimal risk" /\
  report_checked_items rep = checked_items st.
Proof.
  intros st file doc_type now H1 H2 rep. subst rep.
  apply String.eqb_neq in H1, H2.
  unfold run, validate_document. rewrite H1, H2. repeat split.
Qed.

(** ** The view [validate] *)

(** [validate] answers 400 without touching the checker when the request
    has no file part or the file name is empty, and lets the exception of a
    failed save escape, the checker untouched again. *)
Theorem validate_rejects_before_checking : forall st req io now,
  (req_file req = None -> validate st req io now = (st, JsonError "No file uploaded" 400)) /\
  (forall file, req_file req = Some file -> filename file = "" ->
   validate st req io now = (st, JsonError "No file selected" 400)) /\
  (forall file msg, req_file req = Some file -> filename file <> "" -> save_error io = Some msg ->
   validate st req io now = (st, Unhandled msg)).
Proof.
  intros st req io now. unfold validate.
  split; [| split]; [intro H | intros file H1 H2 | intros file msg H1 H2 H3]; rewrite ?H, ?H1.
  - reflexivity.
  - rewrite H2. reflexivity.
  - apply String.eqb_neq in H2. rewrite H2, H3. reflexivity.
Qed.

(** The module-level checker keeps its item count across requests: after a
    request validating a decoded BOM as "bom" (even one whose upload cannot
    be removed afterwards and gets a 500), a successful request of any other
    document type, the default "drawing" included, reports the BOM's row
    count as its [checked_items]. *)
Theorem validate_carries_item_count : forall st req1 req2 file1 file2 df io1 io2 now1 now2,
  req_file req1 = Some file1 -> filename file1 <> "" -> req_doc_type req1 = Some "bom" ->
  as_table (content file1) = Decoded df -> save_error io1 = None ->
  req_file req2 = Some file2 -> filename file2 <> "" -> req_doc_type req2 <> Some "bom" ->
  save_error io2 = None -> remove_error io2 = None ->
  exists rep,
    snd (validate (fst (validate st req1 io1 now1)) req2 io2 now2) = JsonReport rep /\
    report_checked_items rep = List.length (rows df).
Proof.
  intros st req1 req2 file1 file2 df io1 io2 now1 now2 F1 N1 D1 T1 S1 F2 N2 D2 S2 R2.
  apply String.eqb_neq in N1, N2.
  assert (Hst : checked_items (fst (validate st req1 io1 now1)) = List.length (rows df)).
  { unfold validate. rewrite F1, N1, S1, D1.
    pose proof (validate_document_items st (content file1) "bom" now1) as E.
    rewrite T1 in E. change (String.eqb "bom" "bom") with true in E. cbv iota in E.
    destruct (validate_document st (content file1) "bom" now1) as [st' rep].
    cbn [fst] in E. destruct (remove_error io1); exact E. }
  set (st1 := fst (validate st req1 io1 now1)) in *.
  set (d := match req_doc_type req2 with Some d => d | None => "drawing" end).
  assert (Hd : String.eqb d "bom" = false).
  { subst d. destruct (req_doc_type req2) as [d'|]; [| reflexivity].
    apply String.eqb_neq. congruence. }
  exists (snd (validate_document st1 (content file2) d now2)). split.
  - unfold validate. rewrite F2, N2, S2. fold d.
    destruct (validate_document st1 (content file2) d now2) as [st' rep]. rewrite R2. reflexivity.
  - pose proof (checked_items_of_run st1 (content file2) d now2) as E.
    rewrite Hd in E. unfold run in E. rewrite E. exact Hst.
Qed.

(** ** [_find_column] *)

Lemma find_column_eq : forall df possible_names,
  find_column df possible_names = find (column_matches possible_names) (columns df).
Proof. reflexivity. Qed.

Lemma find_first : forall {A} (f : A -> bool) l x,
  find f l = Some x ->
  exists before after, l = (before ++ x :: after)%list /\ f x = true /\
    forall y, In y before -> f y = false.
Proof.
  intros A f l; induction l as [|a l IH]; intros x H; simpl in H; [discriminate |].
  destruct (f a) eqn:Fa.
  - injection H as <-. exists [], l. split; [reflexivity | split; [exact Fa | intros y []]].
  - destruct (IH x H) as (before & after & E & Fx & Hb).
    exists (a :: before), after. split; [rewrite E; reflexivity | split; [exact Fx |]].
    intros y [<- | Hy]; [exact Fa | apply Hb, Hy].
Qed.

Lemma find_none_iff : forall {A} (f : A -> bool) l,
  find f l = None <-> forall y, In y l -> f y = false.
Proof.
  intros A f l; split; [intros H y Hy; exact (find_none f l H y Hy) |].
  induction l as [|a l IH]; intro H; simpl; [reflexivity |].
  rewrite (H a (or_introl eq_refl)). apply IH. intros y Hy. apply H. right; exact Hy.
Qed.

(** [_find_column] returns the first header, in the table's column order,
    that contains one of the names (both lower-cased), whichever name it
    contains; it returns None exactly when no header contains any of
    them. *)
Theorem find_column_first_match : forall df possible_names,
  (forall col, find_column df possible_names = Some col ->
   exists before after, columns df = (before ++ col :: after)%list /\
     column_matches possible_names col = true /\
     forall c, In c before -> column_matches possible_names c = false) /\
  (find_column df possible_names = None <->
   forall c, In c (columns df) -> column_matches possible_names c = false).
Proof.
  intros df possible_names. rewrite find_column_eq. split.
  - intros col H. exact (find_first _ _ col H).
  - apply find_none_iff.
Qed.





(** ** The drawing path *)

Lemma restricted_fold_warnings : forall ms st,
  warnings (fold_left (fun s material =>
      add_violation (mk_finding "AS9100-MAT-001"
        ("Restricted material detected: " ++ material) "HIGH"
        ("Replace " ++ material ++ " with approved alternative")
        (Some "Potential rejection of entire batch") None) s) ms st) = warnings st.
Proof. induction ms as [|m ms IH]; intro st; cbn [fold_left]; [reflexivity | rewrite IH; reflexivity]. Qed.

Lemma restricted_fold_rules' : forall ms st,
  map rule (violations (fold_left (fun s material =>
      add_violation (mk_finding "AS9100-MAT-001"
        ("Restricted material detected: " ++ material) "HIGH"
        ("Replace " ++ material ++ " with approved alternative")
        (Some "Potential rejection of entire batch") None) s) ms st)) =
  (map rule (violations st) ++ map (fun _ => "AS9100-MAT-001") ms)%list.
Proof.
  induction ms as [|m ms IH]; intro st; cbn [fold_left]; [rewrite app_nil_r; reflexivity |].
  rewrite IH. cbn [add_violation violations]. rewrite map_app, <- app_assoc. reflexivity.
Qed.

(** The rules of the findings of a run on a decoded drawing. *)
Lemma run_drawing_rules : forall st file now pages,
  as_pdf file = Decoded pages ->
  let text := extract_pdf_text pages in
  let rep := run st file "drawing" now in
  map rule (report_violations rep) =
    ((if check_itar_marking text then [] else ["ITAR-001"]) ++
     map (fun _ => "AS9100-MAT-001") (check_restricted_materials text) ++
     (if check_traceability text then [] else ["AS9100-TRACE-001"]))%list /\
  map rule (report_warnings rep) =
    (if check_revision_marking text then [] else ["AS9100-DOC-002"]).
Proof.
  intros st file now pages H text rep. subst rep.
  unfold run, validate_document. change (String.eqb "drawing" "drawing") with true.
  cbv beta iota zeta. cbn [snd generate_report report_violations report_warnings violations warnings].
  rewrite H. cbn [validate_technical_drawing]. fold text.
  unfold drawing_checks.
  destruct (check_itar_marking text), (check_revision_marking text), (check_traceability text);
    cbn [negb add_violation add_warning violations warnings];
    rewrite ?map_app, ?restricted_fold_rules', ?restricted_fold_warnings; cbn [map app rule];
    rewrite ?app_nil_r, <- ?app_assoc; split; reflexivity.
Qed.

Lemma length_filter_le : forall {A} (f : A -> bool) l, (List.length (filter f l) <= List.length l)%nat.
Proof.
  intros A f l; induction l as [|x l IH]; simpl; [lia |]. destruct (f x); simpl; lia.
Qed.

(** A decoded drawing only ever gets ITAR-001, AS9100-MAT-001 and
    AS9100-TRACE-001 violations, at most eight of them (one per restricted
    material of the six), and at most one warning, AS9100-DOC-002, exactly
    when no revision mark matches. *)
Theorem drawing_findings_shape : forall st file now pages,
  as_pdf file = Decoded pages ->
  let rep := run st file "drawing" now in
  Forall (fun r => In r ["ITAR-001"; "AS9100-MAT-001"; "AS9100-TRACE-001"])
    (map rule (report_violations rep)) /\
  (List.length (report_violations rep) <= 8)%nat /\
  map rule (report_warnings rep) =
    (if check_revision_marking (extract_pdf_text pages) then [] else ["AS9100-DOC-002"]).
Proof.
  intros st file now pages H rep.
  destruct (run_drawing_rules st file now pages H) as [HV HW]. fold rep in HV, HW.
  set (text := extract_pdf_text pages) in *.
  split; [| split; [| exact HW]].
  - rewrite HV. apply Forall_app. split; [| apply Forall_app; split].
    + destruct (check_itar_marking text); repeat constructor.
    + apply Forall_forall. intros x Hx. apply in_map_iff in Hx as (y & <- & _).
      right; left; reflexivity.
    + destruct (check_traceability text); [constructor | apply Forall_cons; [simpl; auto 10 | constructor]].
  - rewrite <- (length_map rule), HV, !length_app, length_map.
    assert (L : (List.length (check_restricted_materials text) <= 6)%nat)
      by exact (length_filter_le _ drawing_restricted).
    destruct (check_itar_marking text), (check_traceability text); cbn [List.length]; lia.
Qed.

(** A decoded drawing passes exactly when its text has an export-control
    marking and a traceability keyword and names no restricted material; a
    missing revision mark never fails it. *)
Theorem drawing_pass_iff : forall st file now pages,
  as_pdf file = Decoded pages ->
  let text := extract_pdf_text pages in
  status (run st file "drawing" now) = "PASS" <->
  check_itar_marking text = true /\ check_traceability text = true /\
  check_restricted_materials text = [].
Proof.
  intros st file now pages H text.
  destruct (run_drawing_rules st file now pages H) as [HV _]. fold text in HV.
  destruct (run_fields st file "drawing" now) as (E & _ & _ & HS & _).
  cbv zeta in E, HS. rewrite E in HV. rewrite HS.
  destruct (violations (fst (validate_document st file "drawing" now))) as [|v vs].
  - simpl in HV. split; [intros _ | reflexivity].
    destruct (check_itar_marking text), (check_traceability text),
             (check_restricted_materials text); try discriminate; auto.
  - split; [intro X; discriminate |]. intros (I & T & R). rewrite I, T, R in HV. discriminate.
Qed.

(** ** Drawings whose pages have no text *)

Lemma newlines_only_app : forall a b,
  newlines_only (a ++ b) = newlines_only a && newlines_only b.
Proof.
  induction a as [|c a IH]; intro b; simpl; [reflexivity |]. rewrite IH, andb_assoc. reflexivity.
Qed.

Lemma extract_blank_pages : forall pages acc,
  Forall (fun p => p = "") pages -> newlines_only acc = true ->
  newlines_only (fold_left (fun text page => text ++ page ++ String "010" EmptyString) pages acc) = true.
Proof.
  induction pages as [|p ps IH]; intros acc Hp Ha; simpl; [exact Ha |].
  inversion Hp as [| ? ? Hp0 Hps]; subst p. apply IH; [exact Hps |].
  rewrite newlines_only_app, Ha. reflexivity.
Qed.

Lemma newline_char : forall c, Ascii.eqb c "010"%char = true -> c = "010"%char.
Proof. intros c H. apply Ascii.eqb_eq. exact H. Qed.

Lemma lower_newlines : forall s, newlines_only s = true -> lower s = s.
Proof.
  induction s as [|c s IH]; intro H; [reflexivity |].
  simpl in H. apply andb_prop in H as [Hc Hs]. apply newline_char in Hc; subst c.
  unfold lower in *; simpl. rewrite IH by exact Hs. reflexivity.
Qed.

Lemma contains_newlines : forall s c k,
  newlines_only s = true -> Ascii.eqb c "010"%char = false -> contains (String c k) s = false.
Proof.
  induction s as [|a s IH]; intros c k H Hc; [reflexivity |].
  simpl in H. apply andb_prop in H as [Ha Hs]. apply newline_char in Ha; subst a.
  simpl. destruct (ascii_dec c "010") as [-> | _]; [discriminate |].
  apply IH; assumption.
Qed.

Lemma keywords_absent_newlines : forall (l : list string) s,
  newlines_only s = true ->
  forallb (fun kw => match lower kw with
                     | String c _ => negb (Ascii.eqb c "010"%char)
                     | EmptyString => false end) l = true ->
  existsb (fun kw => contains (lower kw) (lower s)) l = false.
Proof.
  induction l as [|kw l IH]; intros s Hs Hl; [reflexivity |].
  simpl in Hl |- *. apply andb_prop in Hl as [Hk Hl].
  rewrite (IH s Hs Hl), orb_false_r, (lower_newlines s Hs).
  destruct (lower kw) as [|c k]; [discriminate |].
  apply contains_newlines; [exact Hs |]. apply negb_true_iff. exact Hk.
Qed.

Lemma re_search_newlines : forall m,
  (forall s, newlines_only s = true -> m s = false) ->
  forall s, newlines_only s = true -> re_search m s = false.
Proof.
  intros m Hm; induction s as [|c s IH]; intro H; simpl.
  - rewrite (Hm EmptyString eq_refl). reflexivity.
  - rewrite (Hm (String c s) H). simpl in H. apply andb_prop in H as [_ Hs]. apply IH, Hs.
Qed.

Lemma matchers_newlines : forall s, newlines_only s = true ->
  rev_at s = false /\ version_at s = false /\ date_at s = false.
Proof.
  intros [|c [|c2 s]] H; [repeat split | |];
    simpl in H; repeat (apply andb_prop in H as [?H H]);
    repeat match goal with Hc : Ascii.eqb _ "010"%char = true |- _ => apply newline_char in Hc; subst end;
    repeat split.
Qed.

Lemma blank_text_checks : forall text, newlines_only text = true ->
  check_itar_marking text = false /\ check_traceability text = false /\
  check_restricted_materials text = [] /\ check_revision_marking text = false.
Proof.
  intros text H. split; [| split; [| split]].
  - apply keywords_absent_newlines; [exact H | reflexivity].
  - apply keywords_absent_newlines; [exact H | reflexivity].
  - unfold check_restricted_materials. rewrite (lower_newlines text H).
    apply filter_nil_in. intros m Hm.
    assert (Hl : forallb (fun kw => match lower kw with
                     | String c _ => negb (Ascii.eqb c "010"%char)
                     | EmptyString => false end) drawing_restricted = true) by reflexivity.
    rewrite forallb_forall in Hl. specialize (Hl m Hm).
    destruct (lower m) as [|c k]; [discriminate |].
    apply contains_newlines; [exact H | apply negb_true_iff; exact Hl].
  - unfold check_revision_marking. simpl.
    rewrite !(re_search_newlines _ (fun s Hs => proj1 (matchers_newlines s Hs)) text H),
            (re_search_newlines _ (fun s Hs => proj1 (proj2 (matchers_newlines s Hs))) text H),
            (re_search_newlines _ (fun s Hs => proj2 (proj2 (matchers_newlines s Hs))) text H).
    reflexivity.
Qed.

(** A decoded drawing whose pages carry no text (a scan, or no page at
    all) fails with ITAR-001 and AS9100-TRACE-001 and gets the
    AS9100-DOC-002 warning: score 35, "$105,000 potential exposure". *)
Theorem blank_drawing_report : forall st file now pages,
  as_pdf file = Decoded pages -> Forall (fun p => p = "") pages ->
  let rep := run st file "drawing" now in
  map rule (report_violations rep) = ["ITAR-001"; "AS9100-TRACE-001"] /\
  map rule (report_warnings rep) = ["AS9100-DOC-002"] /\
  status rep = "FAIL" /\ report_risk_score rep = 35%Z /\
  estimated_risk rep = "$105,000 potential exposure".
Proof.
  intros st file now pages H Hp rep.
  assert (B : newlines_only (extract_pdf_text pages) = true)
    by (apply extract_blank_pages; [exact Hp | reflexivity]).
  destruct (blank_text_checks _ B) as (I & T & R & V).
  destruct (run_drawing_rules st file now pages H) as [HV HW]. fold rep in HV, HW.
  rewrite I, T, R in HV. rewrite V in HW. cbv beta iota in HV, HW. cbn [app map] in HV.
  destruct (run_fields st file "drawing" now) as (E1 & E2 & ER & ES & EE).
  cbv zeta in E1, E2, ER, ES, EE. fold rep in E1, E2, ER, ES, EE.
  rewrite <- E1, <- E2 in ER, EE. rewrite <- E1 in ES.
  assert (L1 : List.length (report_violations rep) = 2%nat) by (rewrite <- (length_map rule), HV; reflexivity).
  assert (L2 : List.length (report_warnings rep) = 1%nat) by (rewrite <- (length_map rule), HW; reflexivity).
  rewrite L1, L2 in ER, EE.
  split; [exact HV | split; [exact HW | split; [| split]]].
  - rewrite ES. destruct (report_violations rep); [discriminate | reflexivity].
  - rewrite ER. reflexivity.
  - rewrite EE. vm_compute. reflexivity.
Qed.

(** ** The BOM path: edge cases and bounds *)

Lemma column_matches_app : forall l1 l2 col,
  column_matches (l1 ++ l2) col = column_matches l1 col || column_matches l2 col.
Proof. intros l1 l2 col. unfold column_matches. apply existsb_app. Qed.

Lemma rows_emit_no_columns : forall b i rs, rows_emit None None None b i rs = [].
Proof.
  intros b i rs; revert i; induction rs as [|row rs IH]; intro i; [reflexivity |].
  unfold rows_emit in *. simpl. rewrite IH, app_nil_r. destruct b; reflexivity.
Qed.

(** A decoded BOM none of whose headers contains a part, material or
    supplier name (lower-cased) runs no row check: the report passes with no
    findings, score 0 and "Minimal risk", though it counts every row. *)
Theorem bom_unrecognised_headers_pass : forall st file now df,
  as_table file = Decoded df ->
  (forall col, In col (columns df) ->
   column_matches ["Part Number"; "P/N"; "Part"; "Material"; "Mat"; "Composition";
                   "Supplier"; "Vendor"; "Manufacturer"] col = false) ->
  let rep := run st file "bom" now in
  status rep = "PASS" /\ report_violations rep = [] /\ report_warnings rep = [] /\
  report_risk_score rep = 0%Z /\ estimated_risk rep = "Minimal risk" /\
  report_checked_items rep = List.length (rows df).
Proof.
  intros st file now df H Hc rep.
  assert (Hcols : bom_part_col df = None /\ bom_material_col df = None /\ bom_supplier_col df = None).
  { unfold bom_part_col, bom_material_col, bom_supplier_col. rewrite !find_column_eq.
    rewrite !find_none_iff.
    split; [| split]; intros c Hin; specialize (Hc c Hin);
      change ["Part Number"; "P/N"; "Part"; "Material"; "Mat"; "Composition";
              "Supplier"; "Vendor"; "Manufacturer"]
        with (["Part Number"; "P/N"; "Part"] ++ ["Material"; "Mat"; "Composition"] ++
              ["Supplier"; "Vendor"; "Manufacturer"])%list in Hc;
      rewrite !column_matches_app in Hc; apply orb_false_iff in Hc as [? Hc];
      apply orb_false_iff in Hc as [? ?]; assumption. }
  destruct Hcols as (P & M & S).
  destruct (run_bom_sigs st file now df H) as [HV HW]. fold rep in HV, HW.
  rewrite P, M, S, rows_emit_no_columns in HV, HW.
  apply map_eq_nil in HV, HW.
  destruct (run_fields st file "bom" now) as (E1 & E2 & ER & ES & EE).
  cbv zeta in E1, E2, ER, ES, EE. fold rep in E1, E2, ER, ES, EE.
  rewrite <- E1, <- E2, HV, HW in ER, EE. rewrite <- E1, HV in ES.
  pose proof (checked_items_of_run st file "bom" now) as EC. fold rep in EC.
  rewrite H in EC.
  split; [exact ES | split; [exact HV | split; [exact HW | split; [exact ER | split; [exact EE | exact EC]]]]].
Qed.

Lemma row_get_nan : forall row key x d, row_get row key (Some x) = None -> row_get row key d = None.
Proof.
  intros row [k|] x d H; simpl in *; [| discriminate].
  destruct (find _ row) as [[? v]|]; [exact H | discriminate].
Qed.

(** A BOM row whose part number cell is NaN gets the AS9100-DATA-001
    violation and, since [str(nan)] is "nan" and "NAN" contains the ITAR
    indicator "AN", also an ITAR-BOM-001 warning for the same row. *)
Theorem missing_part_number_also_itar : forall st file now df i row,
  as_table file = Decoded df ->
  In (i, row) (enum_from 0 (rows df)) ->
  truthy (bom_part_col df) = true ->
  row_get row (bom_part_col df) (Some "") = None ->
  let rep := run st file "bom" now in
  In ("AS9100-DATA-001", "HIGH", Some (row_label i)) (map sig_of (report_violations rep)) /\
  In ("ITAR-BOM-001", "HIGH", Some (row_label i)) (map sig_of (report_warnings rep)).
Proof.
  intros st file now df i row H Hin Hcol Hnan rep.
  set (pc := bom_part_col df) in *. set (mc := bom_material_col df). set (sc := bom_supplier_col df).
  assert (FD : fires pc mc sc DataMissing row = true).
  { cbn [fires]. rewrite Hcol, (row_get_nan row pc "" None Hnan). reflexivity. }
  assert (FI : fires pc mc sc ItarBom row = true).
  { cbn [fires]. rewrite Hcol, Hnan. reflexivity. }
  destruct (run_bom_sigs st file now df H) as [HV HW]. fold rep pc mc sc in HV, HW.
  rewrite HV, HW. unfold rows_emit. split; apply in_flat_map; exists (i, row); split; try exact Hin;
    unfold row_emits, bom_rule_order; cbn [flat_map fst snd].
  - rewrite FD. destruct (fires pc mc sc MatRestricted row); simpl; auto 10.
  - rewrite FI. simpl. auto.
Qed.




(** ** [f"{total:,}"] *)

Lemma filter_rev' : forall {A} (f : A -> bool) l, filter f (rev l) = rev (filter f l).
Proof.
  intros A f l; induction l as [|x l IH]; simpl; [reflexivity |].
  rewrite filter_app, IH. simpl. destruct (f x); simpl; [reflexivity | apply app_nil_r].
Qed.

Lemma filter_group3_rev : forall n ds, (List.length ds <= n)%nat ->
  filter (fun c => negb (Ascii.eqb c ","%char)) (group3_rev ds) =
  filter (fun c => negb (Ascii.eqb c ","%char)) ds.
Proof.
  induction n as [|n IH]; intros ds Hl.
  - destruct ds; [reflexivity | simpl in Hl; lia].
  - destruct ds as [|a [|b [|c [|d rest]]]]; try reflexivity.
    change (group3_rev (a :: b :: c :: d :: rest)) with (a :: b :: c :: ","%char :: group3_rev (d :: rest)).
    assert (Hr : (List.length (d :: rest) <= n)%nat) by (simpl in Hl |- *; lia).
    revert Hr. generalize (d :: rest) as r. intros r Hr.
    cbn [filter]. rewrite (IH r Hr). reflexivity.
Qed.

Lemma comma_free_Z_to_dec : forall z, comma_free (Z_to_dec z).
Proof.
  intro z. unfold Z_to_dec.
  destruct (Z.to_int z) as [d | d]; simpl; [apply comma_free_uint | split; [discriminate | apply comma_free_uint]].
Qed.

Lemma filter_comma_free : forall s, comma_free s ->
  filter (fun c => negb (Ascii.eqb c ","%char)) (list_ascii_of_string s) = list_ascii_of_string s.
Proof.
  induction s as [|a s IH]; intro H; [reflexivity |].
  destruct H as [Ha Hs]. simpl. rewrite IH by exact Hs.
  destruct (Ascii.eqb a ",") eqn:E; [apply Ascii.eqb_eq in E; contradiction | reflexivity].
Qed.

(** Deleting the commas of [f"{total:,}"] gives back [str(total)], which
    parses back to [total]: the grouping only inserts separators. *)
Theorem comma_group_round_trip : forall total,
  remove_commas (comma_group total) = Z_to_dec total /\
  option_map Z.of_int (NilEmpty.int_of_string (remove_commas (comma_group total))) = Some total.
Proof.
  intro total.
  assert (E : remove_commas (comma_group total) = Z_to_dec total).
  { unfold remove_commas, comma_group.
    rewrite list_ascii_of_string_of_list_ascii, filter_rev',
            (filter_group3_rev _ _ (le_n _)), filter_rev', rev_involutive,
            filter_comma_free by apply comma_free_Z_to_dec.
    apply string_of_list_ascii_of_string. }
  split; [exact E |]. rewrite E. unfold Z_to_dec. rewrite NilEmpty.isi. simpl.
  rewrite DecimalZ.of_to. reflexivity.
Qed.

(** ** Witnesses of the further properties *)

Lemma check_other_standards_empty_witness :
  check (mk_engine_data (Some ["beryllium copper"]) (Some "missile guidance")) "ITAR" = empty_result.
Proof. apply check_other_standards_empty; discriminate. Defined.

Lemma engine_missing_keys_empty_witness :
  check_as9100 (mk_engine_data None (Some "missile guidance")) = empty_result /\
  check_itar (mk_engine_data (Some ["cadmium"]) None) = empty_result.
Proof.
  split; [apply (proj1 (engine_missing_keys_empty (mk_engine_data None (Some "missile guidance"))))
         | apply (proj2 (engine_missing_keys_empty (mk_engine_data (Some ["cadmium"]) None)))];
    reflexivity.
Defined.

Lemma as9100_findings_per_material_witness :
  map issue_location (res_violations (check_as9100 (mk_engine_data
    (Some ["Beryllium Copper C17200"; "Al 6061-T6"; "Cadmium plated steel"]) None))) =
  [Some "Beryllium Copper C17200"].
Proof.
  destruct (as9100_findings_per_material
              (mk_engine_data (Some ["Beryllium Copper C17200"; "Al 6061-T6"; "Cadmium plated steel"]) None)
              ["Beryllium Copper C17200"; "Al 6061-T6"; "Cadmium plated steel"] eq_refl) as (H & _).
  rewrite H. vm_compute. reflexivity.
Defined.

Lemma itar_check_ignores_letter_case_witness :
  check_itar (mk_engine_data None (Some "MISSILE guidance")) =
  check_itar (mk_engine_data None (Some "missile GUIDANCE")).
Proof. apply itar_check_ignores_letter_case. reflexivity. Defined.

Lemma unknown_doc_type_passes_witness :
  status (run init_checker (bom_upload two_bad_rows_bom) "BOM" sample_now) = "PASS".
Proof.
  exact (proj1 (unknown_doc_type_passes init_checker (bom_upload two_bad_rows_bom) "BOM" sample_now
                  ltac:(discriminate) ltac:(discriminate))).
Defined.

Lemma validate_rejects_before_checking_witness :
  validate init_checker (mk_request None (Some "bom")) (mk_file_io None None) sample_now =
    (init_checker, JsonError "No file uploaded" 400) /\
  validate init_checker (mk_request (Some (mk_file_part "" (bom_upload cadmium_bom))) None)
    (mk_file_io None None) sample_now = (init_checker, JsonError "No file selected" 400) /\
  validate init_checker (mk_request (Some (mk_file_part "bom.csv" (bom_upload cadmium_bom))) (Some "bom"))
    (mk_file_io (Some "Permission denied") None) sample_now = (init_checker, Unhandled "Permission denied").
Proof.
  split; [| split].
  - apply (proj1 (validate_rejects_before_checking init_checker (mk_request None (Some "bom"))
                    (mk_file_io None None) sample_now)). reflexivity.
  - apply (proj1 (proj2 (validate_rejects_before_checking init_checker
             (mk_request (Some (mk_file_part "" (bom_upload cadmium_bom))) None)
             (mk_file_io None None) sample_now)) (mk_file_part "" (bom_upload cadmium_bom)));
      reflexivity.
  - apply (proj2 (proj2 (validate_rejects_before_checking init_checker
             (mk_request (Some (mk_file_part "bom.csv" (bom_upload cadmium_bom))) (Some "bom"))
             (mk_file_io (Some "Permission denied") None) sample_now))
             (mk_file_part "bom.csv" (bom_upload cadmium_bom)));
      [reflexivity | discriminate | reflexivity].
Defined.

Lemma validate_carries_item_count_witness :
  exists rep,
    snd (validate (fst (validate init_checker
                          (mk_request (Some (mk_file_part "bom.csv" (bom_upload two_bad_rows_bom))) (Some "bom"))
                          (mk_file_io None (Some "Device busy")) sample_now))
                  (mk_request (Some (mk_file_part "drawing.pdf" (drawing_upload ["ITAR Rev A serial number"]))) None)
                  (mk_file_io None None) sample_now) = JsonReport rep /\
    report_checked_items rep = 2%nat.
Proof.
  apply (validate_carries_item_count init_checker
           (mk_request (Some (mk_file_part "bom.csv" (bom_upload two_bad_rows_bom))) (Some "bom"))
           (mk_request (Some (mk_file_part "drawing.pdf" (drawing_upload ["ITAR Rev A serial number"]))) None)
           (mk_file_part "bom.csv" (bom_upload two_bad_rows_bom))
           (mk_file_part "drawing.pdf" (drawing_upload ["ITAR Rev A serial number"]))
           two_bad_rows_bom (mk_file_io None (Some "Device busy")) (mk_file_io None None) sample_now sample_now);
    try reflexivity; discriminate.
Defined.

Lemma find_column_first_match_witness :
  exists before after,
    columns (mk_dataframe ["Qty"; "Spare Parts"; "Part Number"] []) = (before ++ "Spare Parts" :: after)%list /\
    column_matches ["Part Number"; "P/N"; "Part"] "Spare Parts" = true /\
    forall c, In c before -> column_matches ["Part Number"; "P/N"; "Part"] c = false.
Proof.
  apply (proj1 (find_column_first_match (mk_dataframe ["Qty"; "Spare Parts"; "Part Number"] [])
                  ["Part Number"; "P/N"; "Part"])).
  vm_compute. reflexivity.
Defined.

Lemma drawing_findings_shape_witness :
  (List.length (report_violations
     (run init_checker (drawing_upload ["Lead and cadmium plating"]) "drawing" sample_now)) <= 8)%nat.
Proof.
  exact (proj1 (proj2 (drawing_findings_shape init_checker (drawing_upload ["Lead and cadmium plating"])
                         sample_now ["Lead and cadmium plating"] eq_refl))).
Defined.

Lemma drawing_pass_iff_witness :
  status (run init_checker (drawing_upload ["ITAR controlled; serial number required"]) "drawing" sample_now)
    = "PASS".
Proof.
  apply (proj2 (drawing_pass_iff init_checker (drawing_upload ["ITAR controlled; serial number required"])
                  sample_now ["ITAR controlled; serial number required"] eq_refl)).
  vm_compute. repeat split.
Defined.

Lemma blank_drawing_report_witness :
  estimated_risk (run init_checker (drawing_upload [""; ""]) "drawing" sample_now) =
    "$105,000 potential exposure".
Proof.
  apply (blank_drawing_report init_checker (drawing_upload [""; ""]) sample_now [""; ""] eq_refl).
  repeat constructor.
Defined.

Lemma bom_unrecognised_headers_pass_witness :
  status (run init_checker
            (bom_upload (mk_dataframe ["Item"; "Qty"; "Description"]
                           [[("Item", Some "1"); ("Qty", Some "4"); ("Description", Some "Cadmium bolt")]]))
            "bom" sample_now) = "PASS".
Proof.
  apply (bom_unrecognised_headers_pass init_checker
           (bom_upload (mk_dataframe ["Item"; "Qty"; "Description"]
                          [[("Item", Some "1"); ("Qty", Some "4"); ("Description", Some "Cadmium bolt")]]))
           sample_now
           (mk_dataframe ["Item"; "Qty"; "Description"]
              [[("Item", Some "1"); ("Qty", Some "4"); ("Description", Some "Cadmium bolt")]]) eq_refl).
  intros col Hin. simpl in Hin.
  destruct Hin as [<- | [<- | [<- | []]]]; vm_compute; reflexivity.
Defined.

Lemma missing_part_number_also_itar_witness :
  In ("ITAR-BOM-001", "HIGH", Some "Row 3")
     (map sig_of (report_warnings (run init_checker (bom_upload five_row_bom) "bom" sample_now))).
Proof.
  apply (missing_part_number_also_itar init_checker (bom_upload five_row_bom) sample_now five_row_bom 1
           [("Part Number", None); ("Qty", Some "2")]).
  - reflexivity.
  - simpl. right. left. reflexivity.
  - reflexivity.
  - reflexivity.
Defined.

